(** * ev-server: the transaction service

    A shallow embedding of [TransactionService]
    (src/server/rest/router/api/TenantRouter.ts, second document) and of the
    [Log] record (src/types/Log.ts).

    The asynchronous handlers are functions in a state-and-exception monad
    over the data of one tenant; the collaborators whose code is not part of
    the sources (authorizations, integrations, security filters, formatting
    helpers) are the fields of type classes. *)

From Stdlib Require Import ZArith QArith Qround String Ascii List Lia.
From stdpp Require Import base tactics option list gmap strings pretty.

Local Open Scope string_scope.
Local Open Scope list_scope.
Local Open Scope Z_scope.

(** ** JavaScript values *)

(** [!!v] and [if (v)]: the truthiness of the values the service tests. *)
Class Truthy (A : Type) := truthy : A → bool.

#[global] Instance truthy_string : Truthy string :=
  λ s, match s with EmptyString => false | String _ _ => true end.
#[global] Instance truthy_option {A} `{Truthy A} : Truthy (option A) :=
  λ o, match o with Some a => truthy a | None => false end.

(** [s.split(sep)] for a one-character separator. *)
Fixpoint split_go (sep : ascii) (cur : string) (s : string) : list string :=
  match s with
  | EmptyString => [String.rev cur]
  | String c s' =>
      if Ascii.eqb c sep then String.rev cur :: split_go sep "" s'
      else split_go sep (String c cur) s'
  end.

Definition split (sep : ascii) (s : string) : list string := split_go sep "" s.

(** [Math.round]: the nearest integer, halves towards plus infinity.
    Numbers that may carry a fraction are rationals: the model computes
    exactly where the program computes on IEEE doubles, and it speaks for
    the program on the numbers for which the double computation lands on
    the same integer, the quotients of an integer within
    [MAX_SAFE_INTEGER] by 60 or 1000 among them. *)
Definition Math_round (q : Q) : Z := Qfloor (q + (1 # 2))%Q.

(** [Number.MAX_SAFE_INTEGER] *)
Definition MAX_SAFE_INTEGER : Z := 2 ^ 53 - 1.

(** ** Data model *)

Definition ServerAction := string.
Definition Timestamp := Z.

(** src/types/Log.ts *)
Inductive LogLevel := DEBUG | INFO | WARNING | ERROR | NONE | DEFAULT.
Inductive LogType := REGULAR | SECURITY.

Definition LogLevel_value (l : LogLevel) : string :=
  match l with
  | DEBUG => "D" | INFO => "I" | WARNING => "W" | ERROR => "E"
  | NONE => "NONE" | DEFAULT => "DEFAULT"
  end.

Definition LogType_value (t : LogType) : string :=
  match t with REGULAR => "R" | SECURITY => "S" end.

Record User := {
  user_id : string;
  name : string;
  firstName : string;
  user_issuer : bool
}.

Record UserToken := {
  token_id : string;
  tenantID : string;
  locale : string
}.

(** [user?: User|UserToken|string] *)
Inductive LogUser :=
| LogUserEntity (u : User)
| LogUserToken (t : UserToken)
| LogUserID (id : string).

Record Log := {
  log_tenantID : string;
  log_id : option string;
  level : option LogLevel;
  source : option string;
  host : option string;
  process : option string;
  log_module : string;
  method : string;
  log_timestamp : option Timestamp;
  action : option ServerAction;
  type : option LogType;
  message : string;
  log_user : option LogUser;
  userFullName : option string;
  actionOnUser : option LogUser;
  hasDetailedMessages : option bool;
  detailedMessages : option string
}.

Inductive RefundStatus := SUBMITTED | CANCELLED | OtherRefundStatus (s : string).

Definition RefundStatus_eqb (a b : RefundStatus) : bool :=
  match a, b with
  | SUBMITTED, SUBMITTED => true
  | CANCELLED, CANCELLED => true
  | OtherRefundStatus s, OtherRefundStatus s' => String.eqb s s'
  | _, _ => false
  end.

Record RefundData := {
  refundId : option string;
  status : option RefundStatus
}.

Record BillingData := { invoiceID : option string }.

Record Cdr := { cdr_id : option string }.

Record OcpiData := { cdr : option Cdr }.

Record Stop := {
  stop_timestamp : Timestamp;
  totalConsumptionWh : Q;
  totalDurationSecs : Q;
  totalInactivitySecs : Q;
  price : Q;
  priceUnit : string
}.

Record Connector := {
  connectorId : Z;
  currentTransactionID : option Z
}.

Record ChargingStation := {
  cs_id : string;
  connectors : list Connector
}.

(** [chargeBox] is the runtime association of a fetched transaction to its
    charging station.  It is derived, live and never persisted: the record
    names the station that a fetch attaches (by its id), and reading
    [transaction.chargeBox] gives that station as the station store holds
    it when the transaction is fetched
    ([TransactionStorage.chargeBoxOf]). *)
Record Transaction := {
  tx_id : Z;
  chargeBoxID : string;
  tx_connectorId : Z;
  userID : option string;
  user : option User;
  timestamp : Timestamp;
  stop : option Stop;
  issuer : bool;
  refundData : option RefundData;
  billingData : option BillingData;
  ocpiData : option OcpiData;
  chargeBox : option string
}.

(** Objects are truthy whatever they hold. *)
#[global] Instance truthy_Stop : Truthy Stop := λ _, true.

(** [ActionsResponse] of the batch operations. *)
Record ActionsResponse := {
  inSuccess : Z;
  inError : Z
}.

(** The body sent by [handleRefundTransactions]: [inError] is only set when
    some submitted transaction was not refunded. *)
Record RefundResponse := {
  refund_status : string;
  refund_inSuccess : Z;
  refund_inError : option Z
}.

Definition REST_RESPONSE_SUCCESS : string := "Success".

(** ** Errors *)

Inductive HTTPError :=
| GENERAL_ERROR
| OBJECT_DOES_NOT_EXIST_ERROR
| TRANSACTION_NOT_FROM_TENANT
| TRANSACTION_WITH_NO_OCPI_DATA
| TRANSACTION_CDR_ALREADY_PUSHED.

Inductive Action := REFUND_TRANSACTION | UPDATE | DELETE | LIST | READ.
Inductive Entity := TRANSACTION | TRANSACTIONS.

Inductive Exception :=
| AppError (errorCode : HTTPError) (msg : string) (meth : string)
| AppAuthError (act : Action) (entity : Entity) (meth : string) (value : option string)
| TypeError (property : string).

(** ** The state of a tenant

    [transactions] holds, for each id, the object that
    [TransactionStorage.getTransaction] returns, with the [user] it carries
    and the name of the station it comes attached to.  [chargingStations]
    is the collection of the stations, keyed by station id: what it holds
    of a station is its connectors.  [refundSubmissions] and [cdrPushes]
    record what was handed to the refund integration and to the roaming
    collaborator. *)
Record World := {
  transactions : gmap Z Transaction;
  chargingStations : gmap string (list Connector);
  users : gmap string User;
  logs : list Log;
  refundSubmissions : list (string * list Transaction);
  cdrPushes : list Z
}.

Definition set_transactions (f : gmap Z Transaction → gmap Z Transaction) (w : World) : World :=
  {| transactions := f (transactions w); chargingStations := chargingStations w;
     users := users w; logs := logs w;
     refundSubmissions := refundSubmissions w; cdrPushes := cdrPushes w |}.

Definition set_chargingStations
    (f : gmap string (list Connector) → gmap string (list Connector)) (w : World) : World :=
  {| transactions := transactions w; chargingStations := f (chargingStations w);
     users := users w; logs := logs w;
     refundSubmissions := refundSubmissions w; cdrPushes := cdrPushes w |}.

Definition set_logs (f : list Log → list Log) (w : World) : World :=
  {| transactions := transactions w; chargingStations := chargingStations w;
     users := users w; logs := f (logs w);
     refundSubmissions := refundSubmissions w; cdrPushes := cdrPushes w |}.

Definition set_refundSubmissions
    (f : list (string * list Transaction) → list (string * list Transaction))
    (w : World) : World :=
  {| transactions := transactions w; chargingStations := chargingStations w;
     users := users w; logs := logs w;
     refundSubmissions := f (refundSubmissions w); cdrPushes := cdrPushes w |}.

Definition set_cdrPushes (f : list Z → list Z) (w : World) : World :=
  {| transactions := transactions w; chargingStations := chargingStations w;
     users := users w; logs := logs w;
     refundSubmissions := refundSubmissions w; cdrPushes := f (cdrPushes w) |}.

(** ** Asynchronous computations

    A handler either returns or throws; what it wrote before throwing
    stays written. *)
Inductive Completion (A : Type) :=
| Returned (a : A)
| Thrown (e : Exception).
Arguments Returned {A} a.
Arguments Thrown {A} e.

Definition Async (A : Type) : Type := World → Completion A * World.

#[global] Instance Async_ret : MRet Async := λ A a w, (Returned a, w).
#[global] Instance Async_bind : MBind Async := λ A B f m w,
  match m w with
  | (Returned a, w') => f a w'
  | (Thrown e, w') => (Thrown e, w')
  end.

Definition throw {A} (e : Exception) : Async A := λ w, (Thrown e, w).
Definition gets {A} (f : World → A) : Async A := λ w, (Returned (f w), w).
Definition modify (f : World → World) : Async unit := λ w, (Returned tt, f w).

(** [for (const x of xs) { ... }] over the locals [s] that the body updates;
    a [continue] is the body returning early. *)
Fixpoint forOf {A S} (xs : list A) (body : S → A → Async S) (s : S) : Async S :=
  match xs with
  | [] => mret s
  | x :: xs' => s' ← body s x; forOf xs' body s'
  end.

(** [o.p] where [o] may be [null]. *)
Definition getProp {A B} (o : option A) (p : string) (f : A → B) : Async B :=
  match o with
  | Some a => mret (f a)
  | None => throw (TypeError p)
  end.

(** ** Logging and storage *)

Definition MODULE_NAME : string := "TransactionService".

Module Logging.
Definition withLevel (l : LogLevel) (log : Log) : Log :=
  {| log_tenantID := log_tenantID log; log_id := log_id log; level := Some l;
     source := source log; host := host log; process := process log;
     log_module := log_module log; method := method log;
     log_timestamp := log_timestamp log; action := action log; type := type log;
     message := message log; log_user := log_user log;
     userFullName := userFullName log; actionOnUser := actionOnUser log;
     hasDetailedMessages := hasDetailedMessages log;
     detailedMessages := detailedMessages log |}.

Definition logError (log : Log) : Async unit :=
  modify (set_logs (λ l, l ++ [withLevel ERROR log])).

Definition logInfo (log : Log) : Async unit :=
  modify (set_logs (λ l, l ++ [withLevel INFO log])).
End Logging.

Module ChargingStationStorage.
(** Modelled from the spec: ChargingStationStorage is not under src/; the
    stations form a collection keyed by station id, so a station is read
    and saved under its own id.  [stored] is the station held under an
    id. *)
Definition stored (stations : gmap string (list Connector)) (id : string)
    : option ChargingStation :=
  (λ cs, {| cs_id := id; connectors := cs |}) <$> stations !! id.

Definition getChargingStation (id : string) : Async (option ChargingStation) :=
  gets (λ w, stored (chargingStations w) id).

Definition saveChargingStation (chargingStation : ChargingStation) : Async unit :=
  modify (set_chargingStations (<[cs_id chargingStation := connectors chargingStation]>)).
End ChargingStationStorage.

Module TransactionStorage.
Definition getTransaction (id : Z) : Async (option Transaction) :=
  gets (λ w, transactions w !! id).

(** Modelled from the spec: TransactionStorage.getTransaction is not under
    src/; the [chargeBox] of the transaction it answers is the live
    charging-station snapshot, derived at the fetch and not part of the
    stored transaction.  [chargeBoxOf] is [transaction.chargeBox] of a
    transaction just fetched: the station that the station store holds now
    under the id the transaction is attached to, and none when it is
    attached to no station or the station is not stored. *)
Definition chargeBoxOf (transaction : Transaction) : Async (option ChargingStation) :=
  match chargeBox transaction with
  | Some id => ChargingStationStorage.getChargingStation id
  | None => mret None
  end.

Definition saveTransaction (transaction : Transaction) : Async unit :=
  modify (set_transactions (<[tx_id transaction := transaction]>)).

(** Modelled from the spec: the store's bulk delete is not under src/; it
    removes the ids it is given and returns the count actually removed, a
    second delete of an id removing nothing more. *)
Fixpoint deleteMany (ids : list Z) (m : gmap Z Transaction) : nat * gmap Z Transaction :=
  match ids with
  | [] => (0%nat, m)
  | i :: rest =>
      match m !! i with
      | Some _ => let '(n, m') := deleteMany rest (delete i m) in (S n, m')
      | None => deleteMany rest m
      end
  end.

Definition deleteTransactions (transactionsIDs : list Z) : Async Z :=
  λ w, let '(n, m') := deleteMany transactionsIDs (transactions w) in
       (Returned (Z.of_nat n), set_transactions (λ _, m') w).
End TransactionStorage.

Module UserStorage.
Definition getUser (id : string) : Async (option User) :=
  gets (λ w, users w !! id).
End UserStorage.

Module Utils.
(** Modelled from the spec: Utils.getConnectorFromID is not under src/; a
    station exposes its connectors, looked up by connector id. *)
Definition getConnectorFromID (chargingStation : ChargingStation) (connectorID : Z)
    : option Connector :=
  List.find (λ c, Z.eqb (connectorId c) connectorID) (connectors chargingStation).
End Utils.

Module OCPPUtils.
Fixpoint freeConnector (connectorID : Z) (cs : list Connector) : list Connector :=
  match cs with
  | [] => []
  | c :: rest =>
      if Z.eqb (connectorId c) connectorID
      then {| connectorId := connectorId c; currentTransactionID := None |} :: rest
      else c :: freeConnector connectorID rest
  end.

(** Modelled from the spec: OCPPUtils.checkAndFreeChargingStationConnector
    is not under src/; the release operation clears the transaction
    binding of the station's connector, which becomes unset. *)
Definition checkAndFreeChargingStationConnector
    (chargingStation : ChargingStation) (connectorID : Z) : ChargingStation :=
  {| cs_id := cs_id chargingStation;
     connectors := freeConnector connectorID (connectors chargingStation) |}.
End OCPPUtils.

Module UtilsService.
(** Modelled from the spec: UtilsService.assertObjectExists is not under
    src/; a referenced entity that is absent is a not-found error for a
    single-item operation. *)
Definition assertObjectExists {A} (object : option A) (errorMsg method : string) : Async A :=
  match object with
  | Some a => mret a
  | None => throw (AppError OBJECT_DOES_NOT_EXIST_ERROR errorMsg method)
  end.

(** Modelled from the spec: UtilsService.assertIdIsProvided is not under
    src/; a missing required identifier is a validation error. *)
Definition assertIdIsProvided {A} (id : option A) (method : string) : Async A :=
  match id with
  | Some a => mret a
  | None => throw (AppError GENERAL_ERROR "The ID must be provided" method)
  end.
End UtilsService.

(** ** Collaborators *)

Inductive TenantComponents := ORGANIZATION | PRICING | BILLING.
Inductive TransactionAction := END.

(** The capability checker and what it derives from the caller's token. *)
Class Authorizations := {
  canRefundTransaction : UserToken → Transaction → bool;
  canUpdateTransaction : UserToken → bool;
  canDeleteTransaction : UserToken → bool;
  canListTransactionsInError : UserToken → bool;
  getAuthorizedSiteAdminIDs : UserToken → option (list string) → list string;
  isComponentActiveFromToken : UserToken → TenantComponents → bool
}.

(** The refund integration of a tenant: [refund tenantID userID transactions]
    answers the transactions it accepted. *)
Record RefundIntegration := {
  refund : string → string → list Transaction → list Transaction;
  canBeDeleted : Transaction → bool
}.

(** The billing integration is only tested for presence. *)
Record BillingIntegration := { billing_name : string }.

#[global] Instance truthy_BillingIntegration : Truthy BillingIntegration := λ _, true.

(** The factories of the optional integrations, the roaming-protocol
    collaborator, which answers the roaming data of the transaction with the
    CDR it sent or fails, and the summary that [Utils.logActionsResponse]
    writes. *)
Class Integrations := {
  getRefundImpl : string → option RefundIntegration;
  getBillingImpl : string → option BillingIntegration;
  roamingPush :
    string → Transaction → ChargingStation → TransactionAction → Exception + OcpiData;
  logActionsResponse : string → ActionsResponse → list Log
}.

(** [transaction.ocpiData = ocpiData] *)
Definition withOcpiData (t : Transaction) (o : OcpiData) : Transaction :=
  {| tx_id := tx_id t; chargeBoxID := chargeBoxID t;
     tx_connectorId := tx_connectorId t; userID := userID t; user := user t;
     timestamp := timestamp t; stop := stop t; issuer := issuer t;
     refundData := refundData t; billingData := billingData t;
     ocpiData := Some o; chargeBox := chargeBox t |}.

(** Modelled from the spec: OCPPUtils.processOCPITransaction is not under
    src/; the transaction is handed to the roaming-protocol collaborator,
    which builds and sends the CDR, and the push is tracked in the
    [ocpiData] of the transaction, mutated in place. *)
Definition processOCPITransaction `{Integrations} (tenant : string)
    (transaction : Transaction) (chargingStation : ChargingStation)
    (transactionAction : TransactionAction) : Async Transaction :=
  modify (set_cdrPushes (λ l, l ++ [tx_id transaction]));;
  match roamingPush tenant transaction chargingStation transactionAction with
  | inl e => throw e
  | inr ocpi => mret (withOcpiData transaction ocpi)
  end.

(** ** Queries and export *)

(** The filter handed to the store is a JavaScript object built by
    assignments; its values are the kinds the service stores in it. *)
Inductive TransactionInErrorType :=
| LONG_INACTIVITY | NEGATIVE_ACTIVITY | NEGATIVE_DURATION | OVER_CONSUMPTION
| INVALID_START_DATE | NO_CONSUMPTION | MISSING_USER | MISSING_PRICE | NO_BILLING_DATA.

Inductive FilterValue :=
| VUndefined
| VBool (b : bool)
| VString (s : string)
| VStrings (l : list string)
| VDate (d : Timestamp)
| VErrorTypes (l : list TransactionInErrorType).

Definition fromOptionalString (o : option string) : FilterValue :=
  match o with Some s => VString s | None => VUndefined end.

Record HttpTransactionsRequest := {
  ChargeBoxID : option string;
  UserID : option string;
  SiteAreaID : option string;
  SiteID : option string;
  StartDateTime : option Timestamp;
  EndDateTime : option Timestamp;
  ErrorType : option string;
  Search : option string;
  Limit : Z;
  Skip : Z;
  Sort : option string;
  OnlyRecordCount : bool
}.

Record DbParams := {
  limit : Z;
  skip : Z;
  sort : option string;
  onlyRecordCount : bool
}.

Record DataResult := {
  count : Z;
  result : list Transaction
}.

(** The in-error query of the transaction store and the response-shaping
    pass of TransactionSecurity; neither is under src/. *)
Class TransactionQueries := {
  getTransactionsInError : gmap Z Transaction → gmap string FilterValue → DbParams → DataResult;
  filterTransactionsResponse : DataResult → UserToken → DataResult
}.

(** What [convertToCSV] takes from Constants, Cypher, Utils and moment, and
    the rendering of a number that may carry a fraction. *)
Class Formatting := {
  CSV_SEPARATOR : string;
  Cypher_hash : string → string;
  buildUserFullName : User → bool → string;
  moment_format : Timestamp → string → string;
  numberToString : Q → string
}.

Definition CRLF : string := String (ascii_of_nat 13) (String (ascii_of_nat 10) EmptyString).

(** ** Requests *)

Record HttpTransactionsRefundRequest := { transactionIds : option (list Z) }.

Record HttpPushTransactionCdrRequest := { transactionId : option Z }.

(** ** Further collaborators and requests

    What the other handlers of the service take from the capability
    checker, the stores, the security filters and the refund
    synchronization task; none of it is under src/. *)

#[global] Instance truthy_Z : Truthy Z := λ z, negb (Z.eqb z 0).
#[global] Instance truthy_Q : Truthy Q := λ q, negb (Qeq_bool q 0).

Class ReadAuthorizations := {
  canListTransactions : UserToken → bool;
  canReadTransaction : UserToken → Transaction → bool;
  isBasic : UserToken → bool;
  isAdmin : UserToken → bool
}.

(** The values of the filter that [getTransactions] and
    [handleGetRefundReports] hand to the store: [null], [{ $exists: b }],
    and the kinds of the request fields. *)
Inductive QueryValue :=
| QNull
| QExists (b : bool)
| QBool (b : bool)
| QNumber (q : Q)
| QInt (z : Z)
| QText (s : string)
| QTexts (l : list string)
| QDate (d : Timestamp).

Module ListRequest.
Record t := {
  ChargeBoxID : option string;
  Issuer : option bool;
  UserID : option string;
  TagID : option string;
  SiteAreaID : option string;
  SiteID : option string;
  StartDateTime : option Timestamp;
  EndDateTime : option Timestamp;
  RefundStatus : option string;
  MinimalPrice : option Q;
  Statistics : option string;
  Search : option string;
  ReportIDs : option string;
  ConnectorId : option Z;
  InactivityStatus : option string;
  Limit : Z;
  Skip : Z;
  Sort : option string;
  OnlyRecordCount : bool
}.
End ListRequest.

Class TransactionListing := {
  getTransactions_store : gmap Z Transaction → gmap string QueryValue → DbParams → DataResult;
  getRefundReports_store : gmap Z Transaction → gmap string QueryValue → DbParams → DataResult;
  filterRefundReportsResponse : DataResult → UserToken → DataResult
}.

(** [TransactionStorage.assignTransactionsToUser] and
    [TransactionStorage.getUnassignedTransactionsCount]. *)
Class TransactionAssignment := {
  assignTransactionsToUser : gmap Z Transaction → User → gmap Z Transaction;
  getUnassignedTransactionsCount : gmap Z Transaction → User → Z
}.

Record HttpByUserRequest := { byUser_UserID : option string }.

Record HttpByIDRequest := { byID_ID : option Z }.

Record HttpConsumptionFromTransactionRequest := {
  TransactionId : option Z;
  consumption_StartDateTime : option Timestamp;
  consumption_EndDateTime : option Timestamp;
  LoadAllConsumptions : bool
}.

(** The consumptions of a transaction, as the consumption store answers
    them, the response shaping of TransactionSecurity and the rendering of
    [new Date(d).toISOString()]. *)
Class Consumptions := {
  Consumption : Type;
  TransactionResponse : Type;
  ConsumptionsResponse : Type;
  getTransactionConsumptions : Z → list Consumption;
  getOptimizedTransactionConsumptions : Z → list Consumption;
  filterTransactionResponse : Transaction → UserToken → TransactionResponse;
  filterTransactionConsumptionsResponse :
    Transaction → list Consumption → UserToken → ConsumptionsResponse;
  toISOString : Timestamp → string
}.

(** [SynchronizeRefundTransactionsTask.processTenant] on the tenant of the
    caller: it may write and may fail. *)
Class RefundSynchronization := {
  processTenant : string → World → Completion unit * World
}.

(** [error.message] *)
Class ErrorReporting := { errorMessage : Exception → string }.

(** What a handler that answers by itself sends: the success body or the
    error it caught. *)
Inductive HttpResponse :=
| SuccessResponse
| ErrorResponse (e : Exception).

(** [try { body } catch (error) { handler(error) }] *)
Definition tryCatch {A} (body : Async A) (handler : Exception → Async A) : Async A :=
  λ w, match body w with
       | (Returned a, w') => (Returned a, w')
       | (Thrown e, w') => handler e w'
       end.

(** The JavaScript object [{ k1: v1, ..., kn: vn }]. *)
Definition objectOf {V} (fields : list (string * V)) : gmap string V :=
  foldl (λ o kv, <[kv.1 := kv.2]> o) ∅ fields.

(** ** TransactionService *)

Module TransactionService.
Section Service.
Context {Auth : Authorizations} {Integ : Integrations}.

Definition logEntry (loggedUser : UserToken) (onUser : option User)
    (meth : string) (act : ServerAction) (msg : string) : Log :=
  {| log_tenantID := tenantID loggedUser; log_id := None; level := None;
     source := None; host := None; process := None;
     log_module := MODULE_NAME; method := meth; log_timestamp := None;
     action := Some act; type := None; message := msg;
     log_user := Some (LogUserToken loggedUser); userFullName := None;
     actionOnUser := LogUserEntity <$> onUser;
     hasDetailedMessages := None; detailedMessages := None |}.

(** [transaction.refundData && !!transaction.refundData.refundId &&
    transaction.refundData.status !== RefundStatus.CANCELLED] *)
Definition refundedAndNotCancelled (transaction : Transaction) : bool :=
  match refundData transaction with
  | Some rd =>
      truthy (refundId rd) &&
      negb (match status rd with
            | Some s => RefundStatus_eqb s CANCELLED
            | None => false
            end)
  | None => false
  end.

(** The body of the loop of [handleRefundTransactions] over the requested
    ids; [transactionsToRefund] is the array it pushes to.  In the branch
    of a missing transaction the arguments of [Logging.logError] are
    evaluated first, and they read [transaction.user] and
    [transaction.id]. *)
Definition refundTransaction (act : ServerAction) (reqUser : UserToken)
    (transactionsToRefund : list Transaction) (transactionId : Z)
    : Async (list Transaction) :=
  transaction ← TransactionStorage.getTransaction transactionId;
  match transaction with
  | None =>
      onUser ← getProp transaction "user" user;
      id ← getProp transaction "id" tx_id;
      Logging.logError (logEntry reqUser onUser "handleRefundTransactions" act
        ("Transaction '" +:+ pretty id +:+ "' does not exist"));;
      mret transactionsToRefund
  | Some transaction =>
      if refundedAndNotCancelled transaction then
        Logging.logError (logEntry reqUser (user transaction) "handleRefundTransactions" act
          ("Transaction '" +:+ pretty (tx_id transaction) +:+ "' is already refunded"));;
        mret transactionsToRefund
      else if negb (canRefundTransaction reqUser transaction) then
        throw (AppAuthError REFUND_TRANSACTION TRANSACTION "handleRefundTransactions"
                 (Some (pretty (tx_id transaction))))
      else
        mret (transactionsToRefund ++ [transaction])
  end.

Definition handleRefundTransactions (act : ServerAction) (reqUser : UserToken)
    (filteredRequest : HttpTransactionsRefundRequest) : Async RefundResponse :=
  match transactionIds filteredRequest with
  | None =>
      throw (AppError GENERAL_ERROR "Transaction IDs must be provided"
               "handleRefundTransactions")
  | Some ids =>
      transactionsToRefund ← forOf ids (refundTransaction act reqUser) [];
      u ← UserStorage.getUser (token_id reqUser);
      u ← UtilsService.assertObjectExists u
            ("User with ID '" +:+ token_id reqUser +:+ "' does not exist")
            "handleRefundTransactions";
      match getRefundImpl (tenantID reqUser) with
      | None =>
          throw (AppError GENERAL_ERROR "No Refund Implementation Found"
                   "handleRefundTransactions")
      | Some refundConnector =>
          (* what refundConnector.refund is called with *)
          modify (set_refundSubmissions (λ l, l ++ [(user_id u, transactionsToRefund)]));;
          let refundedTransactions :=
            refund refundConnector (tenantID reqUser) (user_id u) transactionsToRefund in
          let notRefundedTransactions :=
            Z.of_nat (length transactionsToRefund) - Z.of_nat (length refundedTransactions) in
          mret {| refund_status := REST_RESPONSE_SUCCESS;
                  refund_inSuccess := Z.of_nat (length refundedTransactions);
                  refund_inError :=
                    if 0 <? notRefundedTransactions
                    then Some notRefundedTransactions else None |}
      end
  end.

Definition handlePushTransactionCdr (act : ServerAction) (reqUser : UserToken)
    (filteredRequest : HttpPushTransactionCdrRequest) : Async string :=
  id ← UtilsService.assertIdIsProvided (transactionId filteredRequest)
         "handlePushTransactionCdr";
  if negb (canUpdateTransaction reqUser) then
    throw (AppAuthError UPDATE TRANSACTION "handlePushTransactionCdr" (Some (pretty id)))
  else
  transaction ← TransactionStorage.getTransaction id;
  transaction ← UtilsService.assertObjectExists transaction
    ("Transaction ID '" +:+ pretty id +:+ "' does not exist") "handlePushTransactionCdr";
  chargingStation ← ChargingStationStorage.getChargingStation (chargeBoxID transaction);
  chargingStation ← UtilsService.assertObjectExists chargingStation
    ("Charging Station ID '" +:+ chargeBoxID transaction +:+ "' does not exist")
    "handlePushTransactionCdr";
  if negb (issuer transaction) then
    throw (AppError TRANSACTION_NOT_FROM_TENANT
             ("The transaction ID '" +:+ pretty (tx_id transaction)
                +:+ "' belongs to an external organization")
             "handlePushTransactionCdr")
  else
  match ocpiData transaction with
  | None =>
      throw (AppError TRANSACTION_WITH_NO_OCPI_DATA
               ("The transaction ID '" +:+ pretty (tx_id transaction)
                  +:+ "' has no OCPI data")
               "handlePushTransactionCdr")
  | Some ocpi =>
      if truthy (c ← cdr ocpi; cdr_id c) then
        throw (AppError TRANSACTION_CDR_ALREADY_PUSHED
                 ("The CDR of the transaction ID '" +:+ pretty (tx_id transaction)
                    +:+ "' has already been pushed")
                 "handlePushTransactionCdr")
      else
        transaction ← processOCPITransaction (tenantID reqUser) transaction
                        chargingStation END;
        TransactionStorage.saveTransaction transaction;;
        Logging.logInfo (logEntry reqUser (user transaction) "handlePushTransactionCdr" act
          ("CDR of Transaction ID '" +:+ pretty (tx_id transaction)
             +:+ "' has been pushed successfully"));;
        mret REST_RESPONSE_SUCCESS
  end.

Definition incError (result : ActionsResponse) : ActionsResponse :=
  {| inSuccess := inSuccess result; inError := inError result + 1 |}.

(** The body of the loop of [deleteTransactions]; its locals are
    [transactionsIDsToDelete] and [result].  The transaction is fetched
    again at every turn, and between the fetch and the read of
    [transaction.chargeBox] no station is written: the station read is the
    one the fetch attached. *)
Definition deleteTransaction (act : ServerAction) (loggedUser : UserToken)
    (refundConnector : option RefundIntegration) (billingImpl : option BillingIntegration)
    (locals : list Z * ActionsResponse) (transactionID : Z)
    : Async (list Z * ActionsResponse) :=
  let '(transactionsIDsToDelete, result) := locals in
  transaction ← TransactionStorage.getTransaction transactionID;
  match transaction with
  | None =>
      Logging.logError (logEntry loggedUser None "handleDeleteTransactions" act
        ("Transaction ID '" +:+ pretty transactionID +:+ "' does not exist"));;
      mret (transactionsIDsToDelete, incError result)
  | Some transaction =>
      if match refundConnector with
         | Some rc => negb (canBeDeleted rc transaction)
         | None => false
         end
      then
        Logging.logError (logEntry loggedUser None "handleDeleteTransactions" act
          ("Transaction ID '" +:+ pretty transactionID
             +:+ "' has been refunded and cannot be deleted"));;
        mret (transactionsIDsToDelete, incError result)
      else if truthy billingImpl &&
              truthy (b ← billingData transaction; invoiceID b)
      then
        Logging.logError (logEntry loggedUser None "handleDeleteTransactions" act
          ("Transaction ID '" +:+ pretty transactionID
             +:+ "' has been billed and cannot be deleted"));;
        mret (transactionsIDsToDelete, incError result)
      else if negb (truthy (stop transaction)) then
        chargeBox ← TransactionStorage.chargeBoxOf transaction;
        match chargeBox with
        | None => mret (transactionsIDsToDelete ++ [transactionID], result)
        | Some chargeBox =>
            let foundConnector :=
              Utils.getConnectorFromID chargeBox (tx_connectorId transaction) in
            (if match foundConnector with
                | Some c => bool_decide (currentTransactionID c = Some (tx_id transaction))
                | None => false
                end
             then
               ChargingStationStorage.saveChargingStation
                 (OCPPUtils.checkAndFreeChargingStationConnector chargeBox
                    (tx_connectorId transaction))
             else mret tt);;
            mret (transactionsIDsToDelete ++ [transactionID], result)
        end
      else
        mret (transactionsIDsToDelete ++ [transactionID], result)
  end.

Definition deleteTransactions (act : ServerAction) (loggedUser : UserToken)
    (transactionsIDs : list Z) : Async ActionsResponse :=
  let refundConnector := getRefundImpl (tenantID loggedUser) in
  let billingImpl := getBillingImpl (tenantID loggedUser) in
  '(transactionsIDsToDelete, result) ←
    forOf transactionsIDs (deleteTransaction act loggedUser refundConnector billingImpl)
      ([], {| inSuccess := 0; inError := 0 |});
  deleted ← TransactionStorage.deleteTransactions transactionsIDsToDelete;
  let result := {| inSuccess := deleted; inError := inError result |} in
  modify (set_logs (λ l, l ++ logActionsResponse (tenantID loggedUser) result));;
  mret result.

Definition handleDeleteTransaction (act : ServerAction) (reqUser : UserToken)
    (transactionId : Z) : Async ActionsResponse :=
  if negb (canDeleteTransaction reqUser) then
    throw (AppAuthError DELETE TRANSACTION "handleDeleteTransaction"
             (Some (pretty transactionId)))
  else
  transaction ← TransactionStorage.getTransaction transactionId;
  UtilsService.assertObjectExists transaction
    ("Transaction with ID '" +:+ pretty transactionId +:+ "' does not exist")
    "handleDeleteTransaction";;
  deleteTransactions act reqUser [transactionId].

Definition handleDeleteTransactions (act : ServerAction) (reqUser : UserToken)
    (transactionsIds : list Z) : Async ActionsResponse :=
  if negb (canDeleteTransaction reqUser) then
    throw (AppAuthError DELETE TRANSACTION "handleDeleteTransactions"
             (Some (String.concat "," (pretty <$> transactionsIds))))
  else
  deleteTransactions act reqUser transactionsIds.

Context {Queries : TransactionQueries}.

Definition defaultErrorTypes (reqUser : UserToken) : list TransactionInErrorType :=
  let types := [LONG_INACTIVITY; NEGATIVE_ACTIVITY; NEGATIVE_DURATION; OVER_CONSUMPTION;
                INVALID_START_DATE; NO_CONSUMPTION; MISSING_USER] in
  let types := if isComponentActiveFromToken reqUser PRICING
               then types ++ [MISSING_PRICE] else types in
  let types := if isComponentActiveFromToken reqUser BILLING
               then types ++ [NO_BILLING_DATA] else types in
  types.

(** The filter object of [handleGetTransactionsInError], assignment by
    assignment, up to the object spread that adds [search]. *)
Definition inErrorFilter (reqUser : UserToken) (filteredRequest : HttpTransactionsRequest)
    : gmap string FilterValue :=
  let filter : gmap string FilterValue := ∅ in
  let filter := <["issuer" := VBool true]> filter in
  let filter := match ChargeBoxID filteredRequest with
                | Some s => if truthy s
                            then <["chargeBoxIDs" := VStrings (split "|" s)]> filter
                            else filter
                | None => filter
                end in
  let filter := match UserID filteredRequest with
                | Some s => if truthy s
                            then <["userIDs" := VStrings (split "|" s)]> filter
                            else filter
                | None => filter
                end in
  let filter :=
    if isComponentActiveFromToken reqUser ORGANIZATION then
      let filter := match SiteAreaID filteredRequest with
                    | Some s => if truthy s
                                then <["siteAreaIDs" := VStrings (split "|" s)]> filter
                                else filter
                    | None => filter
                    end in
      <["siteIDs" := VStrings (getAuthorizedSiteAdminIDs reqUser
                        (if truthy (SiteID filteredRequest)
                         then split "|" <$> SiteID filteredRequest else None))]> filter
    else filter in
  let filter := match StartDateTime filteredRequest with
                | Some d => <["startDateTime" := VDate d]> filter
                | None => filter
                end in
  let filter := match EndDateTime filteredRequest with
                | Some d => <["endDateTime" := VDate d]> filter
                | None => filter
                end in
  let filter :=
    if truthy (ErrorType filteredRequest)
    then <["errorType" := VStrings (split "|" (default "" (ErrorType filteredRequest)))]> filter
    else <["errorType" := VErrorTypes (defaultErrorTypes reqUser)]> filter in
  <["search" := fromOptionalString (Search filteredRequest)]> filter.

Definition handleGetTransactionsInError (reqUser : UserToken)
    (filteredRequest : HttpTransactionsRequest) : Async DataResult :=
  if negb (canListTransactionsInError reqUser) then
    throw (AppAuthError LIST TRANSACTIONS "handleGetTransactionsInError" None)
  else
  transactions ← gets (λ w, getTransactionsInError (transactions w)
      (inErrorFilter reqUser filteredRequest)
      {| limit := Limit filteredRequest; skip := Skip filteredRequest;
         sort := Sort filteredRequest;
         onlyRecordCount := OnlyRecordCount filteredRequest |});
  let transactions := filterTransactionsResponse transactions reqUser in
  let transactions :=
    if (100 <? length (result transactions))%nat
    then {| count := count transactions; result := take 100 (result transactions) |}
    else transactions in
  mret transactions.

Context {Fmt : Formatting}.

Definition CSV_HEADER : string :=
  String.concat CSV_SEPARATOR
    ["ID"; "Charging Station"; "Connector"; "User ID"; "User"; "Start Date";
     "Start Time"; "End Date"; "End Time"; "Total Consumption (kW.h)";
     "Total Duration (Mins)"; "Total Inactivity (Mins)"; "Price"; "Price Unit"]
  +:+ CRLF.

(** The cells of a row that do not read [transaction.stop]. *)
Definition startCells (transaction : Transaction) : list string :=
  [ pretty (tx_id transaction);
    chargeBoxID transaction;
    pretty (tx_connectorId transaction);
    match user transaction with Some u => Cypher_hash (user_id u) | None => "" end;
    match user transaction with Some u => buildUserFullName u false | None => "" end;
    moment_format (timestamp transaction) "YYYY-MM-DD";
    moment_format (timestamp transaction) "HH:mm:ss" ].

(** The cells written as [transaction.stop ? ... : '']. *)
Definition stopCells (transaction : Transaction) : list string :=
  let cell (f : Stop → string) : string :=
    match stop transaction with Some s => f s | None => "" end in
  let scaled (q : Q) (d : Q) : Q := if Qeq_bool q 0 then 0%Q else (q / d)%Q in
  [ cell (λ s, moment_format (stop_timestamp s) "YYYY-MM-DD");
    cell (λ s, moment_format (stop_timestamp s) "HH:mm:ss");
    cell (λ s, pretty (Math_round (scaled (totalConsumptionWh s) 1000%Q)));
    cell (λ s, pretty (Math_round (scaled (totalDurationSecs s) 60%Q)));
    cell (λ s, pretty (Math_round (scaled (totalInactivitySecs s) 60%Q)));
    cell (λ s, numberToString (inject_Z (Math_round (price s * 100)) / 100)%Q);
    cell (λ s, priceUnit s) ].

Definition rowCells (transaction : Transaction) : list string :=
  startCells transaction ++ stopCells transaction.

(** Every cell but the last is followed by the separator, the last one by
    the line end. *)
Definition csvRow (transaction : Transaction) : string :=
  String.concat CSV_SEPARATOR (rowCells transaction) +:+ CRLF.

Definition convertToCSV (loggedUser : UserToken) (transactions : list Transaction)
    (writeHeader : bool) : string :=
  let csv := if writeHeader then CSV_HEADER else "" in
  fold_left (λ csv transaction, csv +:+ csvRow transaction) transactions csv.

(** ** The other handlers *)

Context {Reads : ReadAuthorizations} {Listing : TransactionListing}
        {Assign : TransactionAssignment} {Cons : Consumptions}
        {Sync : RefundSynchronization} {Errors : ErrorReporting}.

(** Modelled from the spec: Logging.logActionExceptionMessageAndSendResponse
    is not under src/; a whole-request failure is logged and produces an
    error response. *)
Definition logActionExceptionMessageAndSendResponse (act : ServerAction)
    (reqUser : UserToken) (error : Exception) : Async HttpResponse :=
  Logging.logError (logEntry reqUser None "logActionExceptionMessageAndSendResponse" act
    (errorMessage error));;
  mret (ErrorResponse error).

Definition handleSynchronizeRefundedTransactions (act : ServerAction) (reqUser : UserToken)
    : Async HttpResponse :=
  tryCatch
    (if negb (isAdmin reqUser) then
       throw (AppAuthError UPDATE TRANSACTION "handleSynchronizeRefundedTransactions" None)
     else
       processTenant (tenantID reqUser);;
       mret SuccessResponse)
    (logActionExceptionMessageAndSendResponse act reqUser).

Definition handleGetUnassignedTransactionsCount (act : ServerAction) (reqUser : UserToken)
    (filteredRequest : HttpByUserRequest) : Async Z :=
  if negb (canUpdateTransaction reqUser) then
    throw (AppAuthError UPDATE TRANSACTION "handleGetUnassignedTransactionsCount" None)
  else
  match byUser_UserID filteredRequest with
  | Some userID =>
      if negb (truthy userID) then
        throw (AppError GENERAL_ERROR "UserID must be provided"
                 "handleGetUnassignedTransactionsCount")
      else
      u ← UserStorage.getUser userID;
      u ← UtilsService.assertObjectExists u
            ("User with ID '" +:+ userID +:+ "' does not exist")
            "handleAssignTransactionsToUser";
      gets (λ w, getUnassignedTransactionsCount (transactions w) u)
  | None =>
      throw (AppError GENERAL_ERROR "UserID must be provided"
               "handleGetUnassignedTransactionsCount")
  end.

Definition handleAssignTransactionsToUser (act : ServerAction) (reqUser : UserToken)
    (filteredRequest : HttpByUserRequest) : Async string :=
  if negb (canUpdateTransaction reqUser) then
    throw (AppAuthError UPDATE TRANSACTION "handleAssignTransactionsToUser" None)
  else
  match byUser_UserID filteredRequest with
  | Some userID =>
      if negb (truthy userID) then
        throw (AppError GENERAL_ERROR "User ID must be provided"
                 "handleAssignTransactionsToUser")
      else
      u ← UserStorage.getUser userID;
      u ← UtilsService.assertObjectExists u
            ("User with ID '" +:+ userID +:+ "' does not exist")
            "handleAssignTransactionsToUser";
      if negb (user_issuer u) then
        throw (AppError GENERAL_ERROR "User not issued by the organization"
                 "handleAssignTransactionsToUser")
      else
        modify (set_transactions (λ m, assignTransactionsToUser m u));;
        mret REST_RESPONSE_SUCCESS
  | None =>
      throw (AppError GENERAL_ERROR "User ID must be provided"
               "handleAssignTransactionsToUser")
  end.

Definition handleGetTransaction (act : ServerAction) (reqUser : UserToken)
    (filteredRequest : HttpByIDRequest) : Async TransactionResponse :=
  id ← UtilsService.assertIdIsProvided (byID_ID filteredRequest) "handleGetTransaction";
  transaction ← TransactionStorage.getTransaction id;
  transaction ← UtilsService.assertObjectExists transaction
    ("Transaction with ID '" +:+ pretty id +:+ "' does not exist") "handleGetTransaction";
  if negb (canReadTransaction reqUser transaction) then
    throw (AppAuthError READ TRANSACTION "handleGetTransaction" (Some (pretty id)))
  else
    mret (filterTransactionResponse transaction reqUser).

Definition handleGetTransactionConsumption (act : ServerAction) (reqUser : UserToken)
    (filteredRequest : HttpConsumptionFromTransactionRequest) : Async ConsumptionsResponse :=
  id ← UtilsService.assertIdIsProvided (TransactionId filteredRequest)
         "handleGetConsumptionFromTransaction";
  transaction ← TransactionStorage.getTransaction id;
  transaction ← UtilsService.assertObjectExists transaction
    ("Transaction with ID '" +:+ pretty id +:+ "' does not exist")
    "handleGetConsumptionFromTransaction";
  if negb (canReadTransaction reqUser transaction) then
    throw (AppAuthError READ TRANSACTION "handleGetConsumptionFromTransaction"
             (Some (pretty (tx_id transaction))))
  else
  match consumption_StartDateTime filteredRequest, consumption_EndDateTime filteredRequest with
  | Some startDateTime, Some endDateTime =>
      if endDateTime <? startDateTime then
        throw (AppError GENERAL_ERROR
                 ("The requested start date '" +:+ toISOString startDateTime
                    +:+ "' is after the requested end date '"
                    +:+ toISOString startDateTime +:+ "' ")
                 "handleGetConsumptionFromTransaction")
      else mret tt
  | _, _ => mret tt
  end;;
  let consumptions :=
    if LoadAllConsumptions filteredRequest
    then getTransactionConsumptions (tx_id transaction)
    else getOptimizedTransactionConsumptions (tx_id transaction) in
  mret (filterTransactionConsumptionsResponse transaction consumptions reqUser).

(** [s ? s.split('|') : null] *)
Definition splitOrNull (o : option string) : QueryValue :=
  match o with
  | Some s => if truthy s then QTexts (split "|" s) else QNull
  | None => QNull
  end.

(** [s ? s : null] *)
Definition textOrNull (o : option string) : QueryValue :=
  match o with
  | Some s => if truthy s then QText s else QNull
  | None => QNull
  end.

(** The filter object of [getTransactions]. *)
Definition transactionsFilter (reqUser : UserToken) (filteredRequest : ListRequest.t)
    (completedTransactions : bool) : gmap string QueryValue :=
  objectOf
    [ ("stop", QExists completedTransactions);
      ("chargeBoxIDs", splitOrNull (ListRequest.ChargeBoxID filteredRequest));
      ("issuer", match ListRequest.Issuer filteredRequest with
                 | Some b => QBool b
                 | None => QNull
                 end);
      ("userIDs", splitOrNull (ListRequest.UserID filteredRequest));
      ("tagIDs", splitOrNull (ListRequest.TagID filteredRequest));
      ("ownerID", if isBasic reqUser then QText (token_id reqUser) else QNull);
      ("siteAreaIDs", splitOrNull (ListRequest.SiteAreaID filteredRequest));
      ("siteIDs", match ListRequest.SiteID filteredRequest with
                  | Some s => if truthy s
                              then QTexts (getAuthorizedSiteAdminIDs reqUser
                                             (Some (split "|" s)))
                              else QNull
                  | None => QNull
                  end);
      ("siteAdminIDs", QTexts (getAuthorizedSiteAdminIDs reqUser None));
      ("startDateTime", match ListRequest.StartDateTime filteredRequest with
                        | Some d => QDate d
                        | None => QNull
                        end);
      ("endDateTime", match ListRequest.EndDateTime filteredRequest with
                      | Some d => QDate d
                      | None => QNull
                      end);
      ("refundStatus", splitOrNull (ListRequest.RefundStatus filteredRequest));
      ("minimalPrice", match ListRequest.MinimalPrice filteredRequest with
                       | Some q => if truthy q then QNumber q else QNull
                       | None => QNull
                       end);
      ("statistics", textOrNull (ListRequest.Statistics filteredRequest));
      ("search", textOrNull (ListRequest.Search filteredRequest));
      ("reportIDs", splitOrNull (ListRequest.ReportIDs filteredRequest));
      ("connectorId", match ListRequest.ConnectorId filteredRequest with
                      | Some z => if truthy z then QInt z else QNull
                      | None => QNull
                      end);
      ("inactivityStatus", splitOrNull (ListRequest.InactivityStatus filteredRequest)) ].

Definition listParams (filteredRequest : ListRequest.t) : DbParams :=
  {| limit := ListRequest.Limit filteredRequest; skip := ListRequest.Skip filteredRequest;
     sort := ListRequest.Sort filteredRequest;
     onlyRecordCount := ListRequest.OnlyRecordCount filteredRequest |}.

Definition getTransactions (reqUser : UserToken) (filteredRequest : ListRequest.t)
    (completedTransactions : bool) : Async DataResult :=
  if negb (canListTransactions reqUser) then
    throw (AppAuthError LIST TRANSACTIONS "handleGetTransactionsToRefund" None)
  else
  transactions ← gets (λ w, getTransactions_store (transactions w)
      (transactionsFilter reqUser filteredRequest completedTransactions)
      (listParams filteredRequest));
  mret (filterTransactionsResponse transactions reqUser).

Definition handleGetTransactionsActive (reqUser : UserToken)
    (filteredRequest : ListRequest.t) : Async DataResult :=
  getTransactions reqUser filteredRequest false.

Definition handleGetTransactionsCompleted (reqUser : UserToken)
    (filteredRequest : ListRequest.t) : Async DataResult :=
  getTransactions reqUser filteredRequest true.

(** The filter object of [handleGetRefundReports], assignment by
    assignment. *)
Definition refundReportsFilter (reqUser : UserToken) (filteredRequest : ListRequest.t)
    : gmap string QueryValue :=
  let filter : gmap string QueryValue := objectOf [("stop", QExists true)] in
  let filter := if isBasic reqUser
                then <["ownerID" := QText (token_id reqUser)]> filter
                else filter in
  if isComponentActiveFromToken reqUser ORGANIZATION then
    let filter := match ListRequest.SiteAreaID filteredRequest with
                  | Some s => if truthy s
                              then <["siteAreaIDs" := QTexts (split "|" s)]> filter
                              else filter
                  | None => filter
                  end in
    let filter := match ListRequest.SiteID filteredRequest with
                  | Some s => if truthy s
                              then <["siteID" := QTexts (getAuthorizedSiteAdminIDs reqUser
                                                           (Some (split "|" s)))]> filter
                              else filter
                  | None => filter
                  end in
    <["siteAdminIDs" := QTexts (getAuthorizedSiteAdminIDs reqUser None)]> filter
  else filter.

Definition handleGetRefundReports (reqUser : UserToken) (filteredRequest : ListRequest.t)
    : Async DataResult :=
  if negb (canListTransactions reqUser) then
    throw (AppAuthError LIST TRANSACTIONS "handleGetRefundReports" None)
  else
  reports ← gets (λ w, getRefundReports_store (transactions w)
      (refundReportsFilter reqUser filteredRequest) (listParams filteredRequest));
  mret (filterRefundReportsResponse reports reqUser).
End Service.
End TransactionService.

(** ** What the properties speak about *)

Import TransactionService.

(** [refundConnector && !refundConnector.canBeDeleted(transaction)] *)
Definition blockedByRefund (refundConnector : option RefundIntegration)
    (transaction : Transaction) : bool :=
  match refundConnector with
  | Some rc => negb (canBeDeleted rc transaction)
  | None => false
  end.

(** [transaction.billingData && transaction.billingData.invoiceID] *)
Definition hasInvoice (transaction : Transaction) : bool :=
  truthy (b ← billingData transaction; invoiceID b).

(** An id that [deleteTransactions] counts in [inError]: the transaction is
    missing, the refund integration of the tenant refuses its deletion, or
    the tenant has a billing integration and the transaction has an
    invoice. *)
Definition ineligible (refundConnector : option RefundIntegration)
    (billingImpl : option BillingIntegration)
    (m : gmap Z Transaction) (transactionID : Z) : bool :=
  match m !! transactionID with
  | None => true
  | Some transaction =>
      blockedByRefund refundConnector transaction
      || (truthy billingImpl && hasInvoice transaction)
  end.

(** Ineligibility in the words "missing, blocked by the refund integration,
    or carrying an invoice", whatever the billing configuration. *)
Definition ineligibleAsStated (refundConnector : option RefundIntegration)
    (m : gmap Z Transaction) (transactionID : Z) : bool :=
  match m !! transactionID with
  | None => true
  | Some transaction =>
      blockedByRefund refundConnector transaction || hasInvoice transaction
  end.

(** The transactions of a list that refund submission may hand on. *)
Definition notRefunded (l : list Transaction) : Prop :=
  Forall (λ t, refundedAndNotCancelled t = false) l.

(** [transaction.ocpiData.cdr?.id] is set. *)
Definition cdrPushed (transaction : Transaction) : bool :=
  truthy (o ← ocpiData transaction; c ← cdr o; cdr_id c).

(** The connector of the station the store holds under the transaction's
    [chargeBoxID] still names the transaction. *)
Definition occupiesConnector (w : World) (transaction : Transaction) : Prop :=
  ∃ cs c,
    ChargingStationStorage.stored (chargingStations w) (chargeBoxID transaction) = Some cs ∧
    Utils.getConnectorFromID cs (tx_connectorId transaction) = Some c ∧
    currentTransactionID c = Some (tx_id transaction).

(** What the connector [connectorID] of the station stored under [id] is
    bound to: nothing when there is no such station or connector. *)
Definition connectorBinding (stations : gmap string (list Connector)) (id : string)
    (connectorID : Z) : option (option Z) :=
  cs ← ChargingStationStorage.stored stations id;
  c ← Utils.getConnectorFromID cs connectorID;
  Some (currentTransactionID c).

(** Contracts of the in-error query collaborators: the store answers a
    filter that asks for issuer transactions with issuer transactions only,
    and the response shaping does not turn the answer into one holding a
    transaction of another organization. *)
Definition allIssuer (d : DataResult) : Prop :=
  Forall (λ t, issuer t = true) (result d).

Definition storeHonoursIssuer `{TransactionQueries} : Prop :=
  ∀ m f p, f !! "issuer" = Some (VBool true) → allIssuer (getTransactionsInError m f p).

Definition shapingKeepsIssuer `{TransactionQueries} : Prop :=
  ∀ d u, allIssuer d → allIssuer (filterTransactionsResponse d u).

(** The reading of the CSV property with nine stop-derived columns: nine
    cells of the row, all empty. *)
Definition nineEmptyStopCells `{Formatting} (transaction : Transaction) : Prop :=
  ∃ cells, cells `sublist_of` rowCells transaction ∧
           length cells = 9%nat ∧ Forall (λ c, c = "") cells.

(** ** Sample data *)

Module Samples.
Definition admin : UserToken :=
  {| token_id := "U1"; tenantID := "T1"; locale := "en_US" |}.

Definition alice : User :=
  {| user_id := "U1"; name := "Martin"; firstName := "Alice"; user_issuer := true |}.

Definition allowAll : Authorizations :=
  {| canRefundTransaction := λ _ _, true;
     canUpdateTransaction := λ _, true;
     canDeleteTransaction := λ _, true;
     canListTransactionsInError := λ _, true;
     getAuthorizedSiteAdminIDs := λ _ ids, default [] ids;
     isComponentActiveFromToken := λ _ _, true |}.

Definition denyRefund : Authorizations :=
  {| canRefundTransaction := λ _ _, false;
     canUpdateTransaction := λ _, true;
     canDeleteTransaction := λ _, true;
     canListTransactionsInError := λ _, true;
     getAuthorizedSiteAdminIDs := λ _ ids, default [] ids;
     isComponentActiveFromToken := λ _ _, false |}.

(** A refund integration that accepts what it is given and refuses the
    deletion of a refunded transaction. *)
Definition refundImpl : RefundIntegration :=
  {| refund := λ _ _ l, l;
     canBeDeleted := λ t, negb (refundedAndNotCancelled t) |}.

Definition billingImpl : BillingIntegration := {| billing_name := "stripe" |}.

Definition sendCdr (_ : string) (t : Transaction) (_ : ChargingStation)
    (_ : TransactionAction) : Exception + OcpiData :=
  inr {| cdr := Some {| cdr_id := Some ("CDR-" +:+ pretty (tx_id t)) |} |}.

Definition noIntegrations : Integrations :=
  {| getRefundImpl := λ _, None;
     getBillingImpl := λ _, None;
     roamingPush := sendCdr;
     logActionsResponse := λ _ _, [] |}.

Definition allIntegrations : Integrations :=
  {| getRefundImpl := λ _, Some refundImpl;
     getBillingImpl := λ _, Some billingImpl;
     roamingPush := sendCdr;
     logActionsResponse := λ _ _, [] |}.

Definition issuerStore : TransactionQueries :=
  {| getTransactionsInError := λ m f _,
       let all := (map_to_list m).*2 in
       let found := match f !! "issuer" with
                    | Some (VBool b) => List.filter (λ t, eqb (issuer t) b) all
                    | _ => all
                    end in
       {| count := Z.of_nat (length found); result := found |};
     filterTransactionsResponse := λ d _, d |}.

Definition plain : Formatting :=
  {| CSV_SEPARATOR := ",";
     Cypher_hash := λ s, "#" +:+ s;
     buildUserFullName := λ u _, firstName u +:+ " " +:+ name u;
     moment_format := λ ts fmt, fmt +:+ ":" +:+ pretty ts;
     numberToString := λ q, pretty (Qnum q) +:+ "/" +:+ pretty (Zpos (Qden q)) |}.

Definition stopped : Stop :=
  {| stop_timestamp := 1600003600; totalConsumptionWh := 7400%Q;
     totalDurationSecs := 3600%Q; totalInactivitySecs := 90%Q;
     price := (5 # 2)%Q; priceUnit := "EUR" |}.

Definition S1 : ChargingStation :=
  {| cs_id := "S1";
     connectors := [ {| connectorId := 1; currentTransactionID := Some 502 |};
                     {| connectorId := 2; currentTransactionID := None |} ] |}.

(** 501: completed, refund submitted. *)
Definition tx501 : Transaction :=
  {| tx_id := 501; chargeBoxID := "S1"; tx_connectorId := 2; userID := Some "U1";
     user := Some alice; timestamp := 1600000000; stop := Some stopped; issuer := true;
     refundData := Some {| refundId := Some "R1"; status := Some SUBMITTED |};
     billingData := None; ocpiData := None; chargeBox := None |}.

(** 502: active on connector 1 of S1, with the station attached. *)
Definition tx502 : Transaction :=
  {| tx_id := 502; chargeBoxID := "S1"; tx_connectorId := 1; userID := Some "U1";
     user := Some alice; timestamp := 1600000000; stop := None; issuer := true;
     refundData := None; billingData := None; ocpiData := None;
     chargeBox := Some "S1" |}.

(** 502 again, as the store answers it when the station is not attached. *)
Definition tx502_bare : Transaction :=
  {| tx_id := 502; chargeBoxID := "S1"; tx_connectorId := 1; userID := Some "U1";
     user := Some alice; timestamp := 1600000000; stop := None; issuer := true;
     refundData := None; billingData := None; ocpiData := None;
     chargeBox := None |}.

(** 503: completed and invoiced. *)
Definition tx503 : Transaction :=
  {| tx_id := 503; chargeBoxID := "S1"; tx_connectorId := 2; userID := Some "U1";
     user := Some alice; timestamp := 1600000000; stop := Some stopped; issuer := true;
     refundData := None; billingData := Some {| invoiceID := Some "INV-1" |};
     ocpiData := None; chargeBox := None |}.

(** 504: completed, roaming context, CDR not pushed yet. *)
Definition tx504 : Transaction :=
  {| tx_id := 504; chargeBoxID := "S1"; tx_connectorId := 2; userID := Some "U1";
     user := Some alice; timestamp := 1600000000; stop := Some stopped; issuer := true;
     refundData := None; billingData := None;
     ocpiData := Some {| cdr := None |}; chargeBox := None |}.

(** 505: roamed in from another organization. *)
Definition tx505 : Transaction :=
  {| tx_id := 505; chargeBoxID := "S1"; tx_connectorId := 2; userID := None;
     user := None; timestamp := 1600000000; stop := Some stopped; issuer := false;
     refundData := None; billingData := None; ocpiData := None; chargeBox := None |}.

(** 507: active on connector 2, fetched with the station S1. *)
Definition tx507 : Transaction :=
  {| tx_id := 507; chargeBoxID := "S1"; tx_connectorId := 2; userID := Some "U1";
     user := Some alice; timestamp := 1600000300; stop := None; issuer := true;
     refundData := None; billingData := None; ocpiData := None;
     chargeBox := Some "S1" |}.

Definition world (txs : list Transaction) : World :=
  {| transactions := list_to_map ((λ t, (tx_id t, t)) <$> txs);
     chargingStations := {[ "S1" := connectors S1 ]};
     users := {[ "U1" := alice ]};
     logs := []; refundSubmissions := []; cdrPushes := [] |}.

(** The tenant with two sessions going on at S1: 502 on connector 1 and
    507 on connector 2. *)
Definition busyWorld : World :=
  {| transactions := list_to_map [(502, tx502); (507, tx507)];
     chargingStations :=
       {[ "S1" := [ {| connectorId := 1; currentTransactionID := Some 502 |};
                    {| connectorId := 2; currentTransactionID := Some 507 |} ] ]};
     users := {[ "U1" := alice ]};
     logs := []; refundSubmissions := []; cdrPushes := [] |}.

(** A store that answers every in-error query with 150 transactions. *)
Definition floodStore : TransactionQueries :=
  {| getTransactionsInError := λ _ _ _, {| count := 150; result := replicate 150 tx501 |};
     filterTransactionsResponse := λ d _, d |}.

Definition inErrorRequest : HttpTransactionsRequest :=
  {| ChargeBoxID := Some "S1|S2"; UserID := None; SiteAreaID := None;
     SiteID := Some "A|B"; StartDateTime := None; EndDateTime := Some 1600009999;
     ErrorType := None; Search := None; Limit := 500; Skip := 0; Sort := None;
     OnlyRecordCount := false |}.

Definition push504 : HttpPushTransactionCdrRequest := {| transactionId := Some 504 |}.

(** The tenant after a first CDR push of 504. *)
Definition pushed504 : World :=
  (@handlePushTransactionCdr allowAll allIntegrations "push" admin push504
     (world [tx504])).2.
End Samples.

(** ** What the further properties speak about *)

(** The transactions that refund submission hands on for a batch: those of
    the ids that are not already refunded, in the order of the batch. *)
Definition survivors (m : gmap Z Transaction) (ids : list Z) : list Transaction :=
  omap (λ id, t ← m !! id; if refundedAndNotCancelled t then None else Some t) ids.

(** An id that the loop of refund submission gets past: the transaction
    exists and is already refunded or may be refunded by the caller. *)
Definition passesRefundLoop `{Authorizations} (u : UserToken)
    (m : gmap Z Transaction) (id : Z) : bool :=
  match m !! id with
  | Some t => refundedAndNotCancelled t || canRefundTransaction u t
  | None => false
  end.

(** An active transaction that is fetched with its station and is named by
    the connector it charges on, for the stations as they are stored. *)
Definition occupant (stations : gmap string (list Connector)) (t : Transaction) : bool :=
  match stop t, chargeBox t ≫= ChargingStationStorage.stored stations with
  | None, Some cs =>
      match Utils.getConnectorFromID cs (tx_connectorId t) with
      | Some c => bool_decide (currentTransactionID c = Some (tx_id t))
      | None => false
      end
  | _, _ => false
  end.

Definition baseErrorTypes : list TransactionInErrorType :=
  [LONG_INACTIVITY; NEGATIVE_ACTIVITY; NEGATIVE_DURATION; OVER_CONSUMPTION;
   INVALID_START_DATE; NO_CONSUMPTION; MISSING_USER].

Definition isErrorLog (l : Log) : Prop := level l = Some ERROR.

(** The message logged for an id that [deleteTransactions] rejects, by the
    reason of the rejection. *)
Definition rejectionMessage (refundConnector : option RefundIntegration)
    (m : gmap Z Transaction) (transactionID : Z) : string :=
  match m !! transactionID with
  | None => "Transaction ID '" +:+ pretty transactionID +:+ "' does not exist"
  | Some transaction =>
      if blockedByRefund refundConnector transaction
      then "Transaction ID '" +:+ pretty transactionID
             +:+ "' has been refunded and cannot be deleted"
      else "Transaction ID '" +:+ pretty transactionID
             +:+ "' has been billed and cannot be deleted"
  end.

Module MoreSamples.
Import Samples.

Definition readers : ReadAuthorizations :=
  {| canListTransactions := λ _, true;
     canReadTransaction := λ _ _, true;
     isBasic := λ u, String.eqb (token_id u) "U2";
     isAdmin := λ u, String.eqb (token_id u) "U1" |}.

Definition basic : UserToken :=
  {| token_id := "U2"; tenantID := "T1"; locale := "en_US" |}.

Definition bob : User :=
  {| user_id := "U3"; name := "Roamer"; firstName := "Bob"; user_issuer := false |}.

(** Assignment gives every transaction without owner to the user. *)
Definition assignment : TransactionAssignment :=
  {| assignTransactionsToUser := λ m u,
       (λ t, match userID t with
             | Some _ => t
             | None =>
                 {| tx_id := tx_id t; chargeBoxID := chargeBoxID t;
                    tx_connectorId := tx_connectorId t; userID := Some (user_id u);
                    user := Some u; timestamp := timestamp t; stop := stop t;
                    issuer := issuer t; refundData := refundData t;
                    billingData := billingData t; ocpiData := ocpiData t;
                    chargeBox := chargeBox t |}
             end) <$> m;
     getUnassignedTransactionsCount := λ m _,
       Z.of_nat (length (List.filter (λ t, negb (truthy (userID t))) (map_to_list m).*2)) |}.

Definition failingSync : RefundSynchronization :=
  {| processTenant := λ _ w,
       (Thrown (AppError GENERAL_ERROR "No Refund Implementation Found" "processTenant"), w) |}.

(** The integrations of a tenant whose roaming partner refuses every push. *)
Definition roamingDown : Integrations :=
  {| getRefundImpl := λ _, Some refundImpl;
     getBillingImpl := λ _, None;
     roamingPush := λ _ _ _ _,
       inl (AppError GENERAL_ERROR "OCPI endpoint unreachable" "processOCPITransaction");
     logActionsResponse := λ _ _, [] |}.

Definition reporting : ErrorReporting :=
  {| errorMessage := λ e, match e with
                          | AppError _ msg _ => msg
                          | AppAuthError _ _ meth _ => meth
                          | TypeError p => p
                          end |}.

Definition consumptions : Consumptions :=
  {| Consumption := Z;
     TransactionResponse := Transaction;
     ConsumptionsResponse := Z * list Z;
     getTransactionConsumptions := λ id, [id; id + 1; id + 2];
     getOptimizedTransactionConsumptions := λ id, [id];
     filterTransactionResponse := λ t _, t;
     filterTransactionConsumptionsResponse := λ t l _, (tx_id t, l);
     toISOString := λ d, pretty d |}.

Definition usersWorld : World :=
  {| transactions := list_to_map [(505, tx505); (501, tx501)];
     chargingStations := {[ "S1" := connectors S1 ]};
     users := {[ "U1" := alice; "U3" := bob ]};
     logs := []; refundSubmissions := []; cdrPushes := [] |}.

Definition listRequest : ListRequest.t :=
  {| ListRequest.ChargeBoxID := Some "S1|S2"; ListRequest.Issuer := None;
     ListRequest.UserID := None; ListRequest.TagID := None;
     ListRequest.SiteAreaID := Some "A1"; ListRequest.SiteID := Some "X|Y";
     ListRequest.StartDateTime := None; ListRequest.EndDateTime := None;
     ListRequest.RefundStatus := None; ListRequest.MinimalPrice := None;
     ListRequest.Statistics := None; ListRequest.Search := None;
     ListRequest.ReportIDs := None; ListRequest.ConnectorId := Some 0;
     ListRequest.InactivityStatus := None; ListRequest.Limit := 50;
     ListRequest.Skip := 0; ListRequest.Sort := None;
     ListRequest.OnlyRecordCount := false |}.

(** 506: completed, whole kWh and minutes and a half. *)
Definition tx506 : Transaction :=
  {| tx_id := 506; chargeBoxID := "S1"; tx_connectorId := 2; userID := None;
     user := None; timestamp := 1600000000;
     stop := Some {| stop_timestamp := 1600003600;
                     totalConsumptionWh := inject_Z 7500;
                     totalDurationSecs := inject_Z 3629;
                     totalInactivitySecs := inject_Z 0;
                     price := (5 # 2)%Q; priceUnit := "EUR" |};
     issuer := true; refundData := None; billingData := None; ocpiData := None;
     chargeBox := None |}.
End MoreSamples.

(** * Properties *)

(** ** Running computations *)

Lemma bind_run {A B} (m : Async A) (f : A → Async B) (w : World) :
  (m ≫= f) w =
  match m w with
  | (Returned a, w') => f a w'
  | (Thrown e, w') => (Thrown e, w')
  end.
Proof. reflexivity. Qed.

Lemma forOf_app {A S} (xs ys : list A) (body : S → A → Async S) (s : S) (w : World) :
  forOf (xs ++ ys) body s w =
  match forOf xs body s w with
  | (Returned s', w') => forOf ys body s' w'
  | (Thrown e, w') => (Thrown e, w')
  end.
Proof.
  revert s w. induction xs as [|x xs IH]; intros s w; simpl.
  - reflexivity.
  - rewrite !bind_run. destruct (body s x w) as [[s'|e] w']; [apply IH | reflexivity].
Qed.

Lemma forOf_cons {A S} (x : A) (xs : list A) (body : S → A → Async S) (s : S) (w : World) :
  forOf (x :: xs) body s w =
  match body s x w with
  | (Returned s', w') => forOf xs body s' w'
  | (Thrown e, w') => (Thrown e, w')
  end.
Proof. reflexivity. Qed.

Ltac run :=
  repeat (rewrite bind_run; simpl);
  unfold Logging.logError, Logging.logInfo, modify, gets, throw, mret, Async_ret; simpl.

(** ** The bulk delete of the store *)

Lemma deleteMany_other (ids : list Z) : ∀ (m : gmap Z Transaction) (i : Z),
  i ∉ ids → (TransactionStorage.deleteMany ids m).2 !! i = m !! i.
Proof.
  induction ids as [|j ids IH]; intros m i Hi; simpl; [reflexivity|].
  apply not_elem_of_cons in Hi as [Hne Hi].
  destruct (m !! j) eqn:Hj.
  - destruct (TransactionStorage.deleteMany ids (delete j m)) as [n m'] eqn:E. simpl.
    specialize (IH (delete j m) i Hi). rewrite E in IH. simpl in IH.
    rewrite IH. by apply lookup_delete_ne.
  - by apply IH.
Qed.

Lemma deleteMany_removed (ids : list Z) : ∀ (m : gmap Z Transaction) (i : Z),
  i ∈ ids → (TransactionStorage.deleteMany ids m).2 !! i = None.
Proof.
  induction ids as [|j ids IH]; intros m i Hi; [by apply elem_of_nil in Hi|].
  simpl. destruct (decide (i ∈ ids)) as [Hin|Hout].
  - destruct (m !! j) eqn:Hj.
    + destruct (TransactionStorage.deleteMany ids (delete j m)) as [n m'] eqn:E. simpl.
      specialize (IH (delete j m) i Hin). by rewrite E in IH.
    + by apply IH.
  - apply elem_of_cons in Hi as [->|Hin]; [|done].
    destruct (m !! j) eqn:Hj.
    + destruct (TransactionStorage.deleteMany ids (delete j m)) as [n m'] eqn:E. simpl.
      pose proof (deleteMany_other ids (delete j m) j Hout) as Ho.
      rewrite E in Ho. simpl in Ho. rewrite Ho. apply lookup_delete_eq.
    + rewrite deleteMany_other by done. exact Hj.
Qed.

(** When the ids are distinct and present, every one of them is counted. *)
Lemma deleteMany_count (ids : list Z) : ∀ (m : gmap Z Transaction),
  NoDup ids → (∀ i, i ∈ ids → is_Some (m !! i)) →
  (TransactionStorage.deleteMany ids m).1 = length ids.
Proof.
  induction ids as [|j ids IH]; intros m Hnd Hall; simpl; [reflexivity|].
  apply NoDup_cons in Hnd as [Hj Hnd].
  destruct (Hall j) as [t Ht]; [by left|]. rewrite Ht.
  destruct (TransactionStorage.deleteMany ids (delete j m)) as [n m'] eqn:E. simpl.
  f_equal. specialize (IH (delete j m) Hnd). rewrite E in IH. simpl in IH.
  apply IH. intros i Hi. rewrite lookup_delete_ne.
  - apply Hall. by right.
  - intros ->. by apply Hj.
Qed.

Section Properties.
Context {Auth : Authorizations} {Integ : Integrations}.

(** ** One id of a deletion batch *)

Lemma deleteTransaction_ineligible act u rc bi td res id w :
  ineligible rc bi (transactions w) id = true →
  ∃ entry,
    deleteTransaction act u rc bi (td, res) id w
      = (Returned (td, incError res), set_logs (λ l, l ++ [entry]) w)
    ∧ level entry = Some ERROR.
Proof.
  unfold ineligible, deleteTransaction, TransactionStorage.getTransaction. intros Hin.
  run. destruct (transactions w !! id) as [t|] eqn:Ht.
  - unfold blockedByRefund, hasInvoice in Hin.
    destruct (match rc with Some rc0 => negb (canBeDeleted rc0 t) | None => false end).
    + run. eexists. split; reflexivity.
    + simpl in Hin. rewrite Hin. run. eexists. split; reflexivity.
  - run. eexists. split; reflexivity.
Qed.

Lemma deleteTransaction_eligible act u rc bi td res id w :
  ineligible rc bi (transactions w) id = false →
  ∃ w',
    deleteTransaction act u rc bi (td, res) id w = (Returned (td ++ [id], res), w')
    ∧ transactions w' = transactions w ∧ logs w' = logs w.
Proof.
  unfold ineligible, deleteTransaction, TransactionStorage.getTransaction. intros Hin.
  run. destruct (transactions w !! id) as [t|] eqn:Ht; [|discriminate].
  unfold blockedByRefund, hasInvoice in Hin.
  apply orb_false_iff in Hin as [Hr Hb]. rewrite Hr, Hb.
  destruct (stop t); simpl; [by eexists|].
  unfold TransactionStorage.chargeBoxOf, ChargingStationStorage.getChargingStation.
  destruct (chargeBox t) as [k|]; run; [|by eexists].
  destruct (ChargingStationStorage.stored (chargingStations w) k) as [cb|]; run;
    [|by eexists].
  destruct (match Utils.getConnectorFromID cb (tx_connectorId t) with
            | Some c => bool_decide (currentTransactionID c = Some (tx_id t))
            | None => false
            end); run; by eexists.
Qed.

(** The loop never throws, leaves the transaction store as it is, marks
    the eligible ids in order and counts the others. *)
Lemma deleteLoop_spec act u rc bi ids : ∀ td res w,
  ∃ w',
    forOf ids (deleteTransaction act u rc bi) (td, res) w
      = (Returned
           (td ++ List.filter (λ i, negb (ineligible rc bi (transactions w) i)) ids,
            {| inSuccess := inSuccess res;
               inError := inError res
                 + Z.of_nat (length (List.filter (ineligible rc bi (transactions w)) ids)) |}),
         w')
    ∧ transactions w' = transactions w.
Proof.
  induction ids as [|id ids IH]; intros td res w.
  - exists w. split; [|done]. simpl. unfold mret, Async_ret. rewrite app_nil_r.
    destruct res; simpl. by rewrite Z.add_0_r.
  - rewrite forOf_cons. destruct (ineligible rc bi (transactions w) id) eqn:Hin.
    + destruct (deleteTransaction_ineligible act u rc bi td res id w Hin)
        as (entry & -> & _).
      destruct (IH td (incError res) (set_logs (λ l, l ++ [entry]) w)) as (w' & Hrun & Hw').
      exists w'. rewrite Hrun. simpl. rewrite Hin. simpl. split; [|done].
      by rewrite Nat2Z.inj_succ, <- Z.add_1_l, Z.add_assoc.
    + destruct (deleteTransaction_eligible act u rc bi td res id w Hin)
        as (w1 & -> & Hw1 & _).
      destruct (IH (td ++ [id]) res w1) as (w' & Hrun & Hw').
      exists w'. rewrite Hrun, Hw1. simpl. rewrite Hin. simpl. split; [|by rewrite Hw'].
      by rewrite <- app_assoc.
Qed.

Lemma deleteTransactions_spec act u ids w :
  let rc := getRefundImpl (tenantID u) in
  let bi := getBillingImpl (tenantID u) in
  let marked := List.filter (λ i, negb (ineligible rc bi (transactions w) i)) ids in
  ∃ w',
    deleteTransactions act u ids w
      = (Returned
           {| inSuccess := Z.of_nat (TransactionStorage.deleteMany marked (transactions w)).1;
              inError := Z.of_nat (length (List.filter (ineligible rc bi (transactions w)) ids)) |},
         w')
    ∧ transactions w' = (TransactionStorage.deleteMany marked (transactions w)).2.
Proof.
  intros rc bi marked. unfold deleteTransactions. cbv zeta. rewrite bind_run.
  destruct (deleteLoop_spec act u rc bi ids [] {| inSuccess := 0; inError := 0 |} w)
    as (w1 & Hrun & Hw1).
  subst rc bi. rewrite Hrun. simpl. fold marked. rewrite bind_run.
  unfold TransactionStorage.deleteTransactions. rewrite Hw1.
  destruct (TransactionStorage.deleteMany marked (transactions w)) as [n m'] eqn:E.
  run. eexists. split; reflexivity.
Qed.

(** ** Deletion: invoices, refunds, accounting, connector release *)

Lemma ineligible_not_marked rc bi (m : gmap Z Transaction) id ids :
  ineligible rc bi m id = true →
  id ∉ List.filter (λ i, negb (ineligible rc bi m i)) ids.
Proof.
  intros Hin Hel. apply list_elem_of_In, filter_In in Hel as [_ Hel].
  by rewrite Hin in Hel.
Qed.

Lemma occurrences_counted (f : Z → bool) id ids :
  f id = true →
  (length (List.filter (Z.eqb id) ids) ≤ length (List.filter f ids))%nat.
Proof.
  intros Hf. induction ids as [|x ids IH]; simpl; [lia|].
  destruct (Z.eqb_spec id x) as [<-|Hne].
  - rewrite Hf. simpl. lia.
  - destruct (f x); simpl; lia.
Qed.

(** An ineligible id stays in the store and every occurrence of it in the
    batch is counted in [inError]. *)
Lemma deleteTransactions_rejects act u ids w id :
  ineligible (getRefundImpl (tenantID u)) (getBillingImpl (tenantID u))
    (transactions w) id = true →
  ∃ res w',
    deleteTransactions act u ids w = (Returned res, w')
    ∧ transactions w' !! id = transactions w !! id
    ∧ Z.of_nat (length (List.filter (Z.eqb id) ids)) ≤ inError res.
Proof.
  intros Hin. destruct (deleteTransactions_spec act u ids w) as (w' & Hrun & Hw').
  eexists _, w'. split; [exact Hrun|]. split.
  - rewrite Hw'. apply deleteMany_other. by apply ineligible_not_marked.
  - simpl. apply inj_le. by apply occurrences_counted.
Qed.

(** C2 (amended): when the tenant has a billing integration, a
    transaction with a non-empty [billingData.invoiceID] is rejected by
    bulk deletion, whatever its refund state and whatever the refund
    integration: the loop body counts it in [inError] with a log entry
    and does not mark it, and after [deleteTransactions] it is still in
    the store, each of its occurrences in the batch counted in
    [inError]. *)
Theorem C2_invoiced_transaction_is_rejected act u ids w id t billing :
  getBillingImpl (tenantID u) = Some billing →
  transactions w !! id = Some t →
  hasInvoice t = true →
  (∀ rc td r, ∃ entry,
     deleteTransaction act u rc (Some billing) (td, r) id w
       = (Returned (td, incError r), set_logs (λ l, l ++ [entry]) w)
     ∧ level entry = Some ERROR)
  ∧ ∃ res w',
      deleteTransactions act u ids w = (Returned res, w')
      ∧ transactions w' !! id = Some t
      ∧ Z.of_nat (length (List.filter (Z.eqb id) ids)) ≤ inError res.
Proof.
  intros Hb Ht Hinv.
  assert (Hin : ∀ rc, ineligible rc (Some billing) (transactions w) id = true).
  { intros rc. unfold ineligible. rewrite Ht, Hinv. simpl. apply orb_true_r. }
  split.
  - intros rc td r. by apply deleteTransaction_ineligible.
  - destruct (deleteTransactions_rejects act u ids w id) as (res & w' & Hrun & Hkeep & Hcnt).
    { rewrite Hb. apply Hin. }
    exists res, w'. by rewrite Hkeep, Ht.
Qed.

Lemma filter_split_length {A} (f : A → bool) (l : list A) :
  (length (List.filter f l) + length (List.filter (λ x, negb (f x)) l))%nat = length l.
Proof.
  induction l as [|x l IH]; simpl; [reflexivity|]. destruct (f x); simpl; lia.
Qed.

(** C4 (amended): for a batch of N ids of which M are ineligible (missing,
    refused by the refund integration of the tenant, or invoiced while the
    tenant has a billing integration), [deleteTransactions] returns, with
    [inError = M]; when the bulk delete of the store removes every id it
    is given, as it does when the ids of the batch are distinct,
    [inSuccess = N - M]. *)
Theorem C4_delete_accounting act u ids w :
  let rc := getRefundImpl (tenantID u) in
  let bi := getBillingImpl (tenantID u) in
  let M := Z.of_nat (length (List.filter (ineligible rc bi (transactions w)) ids)) in
  let N := Z.of_nat (length ids) in
  let marked := List.filter (λ i, negb (ineligible rc bi (transactions w) i)) ids in
  ∃ res w',
    deleteTransactions act u ids w = (Returned res, w')
    ∧ inError res = M
    ∧ ((TransactionStorage.deleteMany marked (transactions w)).1 = length marked →
       inSuccess res = N - M)
    ∧ (NoDup ids → inSuccess res = N - M).
Proof.
  intros rc bi M N marked.
  destruct (deleteTransactions_spec act u ids w) as (w' & Hrun & Hw').
  fold rc bi marked in Hrun. eexists _, w'. split; [exact Hrun|]. simpl.
  assert (Hlen : Z.of_nat (length marked) = N - M).
  { subst N M marked.
    pose proof (filter_split_length (ineligible rc bi (transactions w)) ids). lia. }
  split; [reflexivity|]. split.
  - intros ->. exact Hlen.
  - intros Hnd. rewrite deleteMany_count; [exact Hlen| |].
    + subst marked. by apply NoDup_ListNoDup, List.NoDup_filter, NoDup_ListNoDup.
    + intros i Hi. apply list_elem_of_In, filter_In in Hi as [_ Hi].
      unfold ineligible in Hi. destruct (transactions w !! i); [by eexists|done].
Qed.

Lemma freeConnector_found cid (cs : list Connector) c :
  List.find (λ c, Z.eqb (connectorId c) cid) cs = Some c →
  List.find (λ c, Z.eqb (connectorId c) cid) (OCPPUtils.freeConnector cid cs)
    = Some {| connectorId := connectorId c; currentTransactionID := None |}.
Proof.
  induction cs as [|x cs IH]; simpl; [discriminate|].
  destruct (Z.eqb (connectorId x) cid) eqn:E; simpl.
  - intros [= <-]. by rewrite E.
  - rewrite E. exact IH.
Qed.

(** A release leaves every connector of the station in place, bound as it
    was or unset. *)
Lemma freeConnector_find cid cid' (cs : list Connector) c :
  List.find (λ c, Z.eqb (connectorId c) cid) cs = Some c →
  ∃ c',
    List.find (λ c, Z.eqb (connectorId c) cid) (OCPPUtils.freeConnector cid' cs) = Some c'
    ∧ (currentTransactionID c' = currentTransactionID c ∨ currentTransactionID c' = None).
Proof.
  induction cs as [|x cs IH]; simpl; [discriminate|].
  destruct (Z.eqb (connectorId x) cid') eqn:E'; simpl;
    destruct (Z.eqb (connectorId x) cid) eqn:E.
  - intros _. eexists. split; [reflexivity|]. by right.
  - intros Hc. exists c. split; [exact Hc|]. by left.
  - intros [= <-]. exists x. split; [reflexivity|]. by left.
  - exact IH.
Qed.

Lemma connectorBinding_insert stations k k' cid cs :
  connectorBinding (<[k' := cs]> stations) k cid
    = if decide (k' = k)
      then c ← List.find (λ c, Z.eqb (connectorId c) cid) cs; Some (currentTransactionID c)
      else connectorBinding stations k cid.
Proof.
  unfold connectorBinding, ChargingStationStorage.stored, Utils.getConnectorFromID.
  destruct (decide (k' = k)) as [->|Hne].
  - by rewrite lookup_insert_eq.
  - by rewrite lookup_insert_ne.
Qed.

(** One turn of the deletion loop leaves every stored connector in place,
    bound as it was or unset. *)
Lemma deleteTransaction_connector act u rc bi locals j w o w' k cid b :
  deleteTransaction act u rc bi locals j w = (o, w') →
  connectorBinding (chargingStations w) k cid = Some b →
  connectorBinding (chargingStations w') k cid = Some b
  ∨ connectorBinding (chargingStations w') k cid = Some None.
Proof.
  destruct locals as [td res].
  unfold deleteTransaction, TransactionStorage.getTransaction. run.
  destruct (transactions w !! j) as [tj|] eqn:Htj; run; [|intros [= <- <-]; by left].
  destruct (match rc with Some rc0 => negb (canBeDeleted rc0 tj) | None => false end);
    run; [intros [= <- <-]; by left|].
  destruct (truthy bi && truthy (billingData tj ≫= invoiceID)); run;
    [intros [= <- <-]; by left|].
  destruct (stop tj); simpl; [intros [= <- <-]; by left|].
  unfold TransactionStorage.chargeBoxOf, ChargingStationStorage.getChargingStation.
  destruct (chargeBox tj) as [kj|]; run; [|intros [= <- <-]; by left].
  destruct (ChargingStationStorage.stored (chargingStations w) kj) as [cb|] eqn:Hcb; run;
    [|intros [= <- <-]; by left].
  destruct (match Utils.getConnectorFromID cb (tx_connectorId tj) with
            | Some c => bool_decide (currentTransactionID c = Some (tx_id tj))
            | None => false
            end); run; intros [= <- <-]; simpl; [|by left].
  intros Hb. rewrite connectorBinding_insert.
  unfold ChargingStationStorage.stored in Hcb.
  destruct (chargingStations w !! kj) as [conns|] eqn:Hkj; [|discriminate].
  injection Hcb as <-. simpl. destruct (decide (kj = k)) as [->|Hne]; [|by left].
  unfold connectorBinding, ChargingStationStorage.stored, Utils.getConnectorFromID in Hb.
  rewrite Hkj in Hb. simpl in Hb.
  destruct (List.find (λ c, Z.eqb (connectorId c) cid) conns) as [c|] eqn:Hc; [|discriminate].
  injection Hb as <-.
  destruct (freeConnector_find cid (tx_connectorId tj) conns c Hc) as (c' & -> & [Hc'|Hc']);
    simpl; rewrite Hc'; auto.
Qed.

Lemma deleteLoop_connector act u rc bi k cid ids : ∀ locals w o w' b,
  forOf ids (deleteTransaction act u rc bi) locals w = (o, w') →
  connectorBinding (chargingStations w) k cid = Some b →
  connectorBinding (chargingStations w') k cid = Some b
  ∨ connectorBinding (chargingStations w') k cid = Some None.
Proof.
  induction ids as [|j ids IH]; intros locals w o w' b.
  - simpl. intros [= <- <-]. by left.
  - rewrite forOf_cons.
    destruct (deleteTransaction act u rc bi locals j w) as [[locals1|e] w1] eqn:E.
    + intros Hrun Hb.
      destruct (deleteTransaction_connector _ _ _ _ _ _ _ _ _ k cid b E Hb) as [Hb1|Hb1].
      * exact (IH _ _ _ _ _ Hrun Hb1).
      * right. by destruct (IH _ _ _ _ _ Hrun Hb1).
    + intros [= <- <-]. exact (deleteTransaction_connector _ _ _ _ _ _ _ _ _ k cid b E).
Qed.

(** The turn of an eligible active transaction that is fetched with its
    station: when it goes by, the connector it charges on is unset, if it
    named the transaction or nothing before. *)
Lemma deleteTransaction_release act u rc bi locals id w t k o w' :
  transactions w !! id = Some t →
  ineligible rc bi (transactions w) id = false →
  stop t = None →
  chargeBox t = Some k →
  (connectorBinding (chargingStations w) k (tx_connectorId t) = Some (Some (tx_id t))
   ∨ connectorBinding (chargingStations w) k (tx_connectorId t) = Some None) →
  deleteTransaction act u rc bi locals id w = (o, w') →
  connectorBinding (chargingStations w') k (tx_connectorId t) = Some None.
Proof.
  intros Ht Hin Hstop Hk Hb. destruct locals as [td res].
  unfold ineligible in Hin. rewrite Ht in Hin.
  unfold blockedByRefund, hasInvoice in Hin. apply orb_false_iff in Hin as [Hr Hi].
  unfold deleteTransaction, TransactionStorage.getTransaction. run.
  rewrite Ht, Hr, Hi, Hstop. simpl.
  unfold TransactionStorage.chargeBoxOf, ChargingStationStorage.getChargingStation.
  rewrite Hk. run.
  unfold connectorBinding, ChargingStationStorage.stored, Utils.getConnectorFromID in Hb.
  unfold ChargingStationStorage.stored, Utils.getConnectorFromID.
  destruct (chargingStations w !! k) as [conns|] eqn:Hconns; simpl in Hb;
    [|by destruct Hb]. simpl.
  destruct (List.find (λ c, Z.eqb (connectorId c) (tx_connectorId t)) conns) as [c|] eqn:Hc;
    simpl in Hb; [|by destruct Hb].
  destruct (bool_decide (currentTransactionID c = Some (tx_id t))) eqn:Hcur; run;
    intros [= <- <-]; simpl.
  - rewrite connectorBinding_insert. rewrite decide_True by done.
    by rewrite (freeConnector_found _ _ _ Hc).
  - apply bool_decide_eq_false in Hcur.
    unfold connectorBinding, ChargingStationStorage.stored, Utils.getConnectorFromID.
    rewrite Hconns. simpl. rewrite Hc. simpl. destruct Hb as [[= Hb]|[= Hb]]; congruence.
Qed.

(** C5 (amended): an active transaction that is fetched with its charging
    station and is the current occupant of that station's connector, in
    any batch that names it: after [deleteTransactions] the transaction is
    gone from the store and the station store holds the station with the
    connector's [currentTransactionID] unset. *)
Theorem C5_connector_released_on_delete act u ids w id t k cs c :
  id ∈ ids →
  transactions w !! id = Some t →
  ineligible (getRefundImpl (tenantID u)) (getBillingImpl (tenantID u))
    (transactions w) id = false →
  stop t = None →
  chargeBox t = Some k →
  ChargingStationStorage.stored (chargingStations w) k = Some cs →
  Utils.getConnectorFromID cs (tx_connectorId t) = Some c →
  currentTransactionID c = Some (tx_id t) →
  ∃ res w' cs' c',
    deleteTransactions act u ids w = (Returned res, w')
    ∧ transactions w' !! id = None
    ∧ ChargingStationStorage.stored (chargingStations w') k = Some cs'
    ∧ Utils.getConnectorFromID cs' (tx_connectorId t) = Some c'
    ∧ currentTransactionID c' = None.
Proof.
  intros Hid Ht Hin Hstop Hk Hcs Hc Hcur.
  set (rc := getRefundImpl (tenantID u)) in *.
  set (bi := getBillingImpl (tenantID u)) in *.
  assert (Hb : connectorBinding (chargingStations w) k (tx_connectorId t)
               = Some (Some (tx_id t))).
  { unfold connectorBinding. rewrite Hcs. simpl. rewrite Hc. simpl. by rewrite Hcur. }
  apply list_elem_of_split in Hid as (pre & post & ->).
  unfold deleteTransactions. cbv zeta. fold rc bi. rewrite bind_run, forOf_app.
  destruct (deleteLoop_spec act u rc bi pre [] {| inSuccess := 0; inError := 0 |} w)
    as (w1 & Hpre & Hw1).
  pose proof (deleteLoop_connector _ _ _ _ k (tx_connectorId t) _ _ _ _ _ _ Hpre Hb) as Hb1.
  rewrite Hpre, forOf_cons.
  match goal with
  | |- context [deleteTransaction act u rc bi (?td, ?res) id w1] =>
      destruct (deleteTransaction_eligible act u rc bi td res id w1)
        as (w2 & Hstep & Hw2 & _); [by rewrite Hw1|]
  end.
  rewrite Hstep.
  assert (Hb2 : connectorBinding (chargingStations w2) k (tx_connectorId t) = Some None).
  { eapply (deleteTransaction_release act u rc bi _ id w1 t k);
      [| | | |exact Hb1|exact Hstep]; rewrite ?Hw1; done. }
  match goal with
  | |- context [forOf post _ (?td, ?res) w2] =>
      destruct (deleteLoop_spec act u rc bi post td res w2) as (w3 & Hpost & Hw3)
  end.
  rewrite Hpost.
  assert (Hb3 : connectorBinding (chargingStations w3) k (tx_connectorId t) = Some None).
  { by destruct (deleteLoop_connector _ _ _ _ k (tx_connectorId t) _ _ _ _ _ _ Hpost Hb2). }
  simpl. rewrite bind_run. unfold TransactionStorage.deleteTransactions.
  rewrite Hw3, Hw2, Hw1.
  set (marked := (_ ++ [id]) ++ _).
  pose proof (deleteMany_removed marked (transactions w) id) as Hgone.
  destruct (TransactionStorage.deleteMany marked (transactions w)) as [n m'] eqn:E.
  run. unfold connectorBinding in Hb3.
  destruct (ChargingStationStorage.stored (chargingStations w3) k) as [cs'|] eqn:Hcs';
    [|discriminate]. simpl in Hb3.
  destruct (Utils.getConnectorFromID cs' (tx_connectorId t)) as [c'|] eqn:Hc';
    [|discriminate]. injection Hb3 as Hb3.
  eexists _, _, cs', c'. split; [reflexivity|]. simpl.
  split; [|split; [|split]]; try done.
  apply Hgone. subst marked. apply elem_of_app. left. apply elem_of_app. right. by left.
Qed.

(** ** Refund submission *)

(** A missing transaction: reading [transaction.user] throws before
    anything is logged. *)
Lemma refundTransaction_missing act u acc id w :
  transactions w !! id = None →
  refundTransaction act u acc id w = (Thrown (TypeError "user"), w).
Proof.
  intros Ht. unfold refundTransaction, TransactionStorage.getTransaction. run.
  by rewrite Ht.
Qed.

Lemma refundTransaction_refunded act u acc id w t :
  transactions w !! id = Some t →
  refundedAndNotCancelled t = true →
  ∃ entry,
    refundTransaction act u acc id w
      = (Returned acc, set_logs (λ l, l ++ [entry]) w)
    ∧ level entry = Some ERROR
    ∧ message entry = "Transaction '" +:+ pretty (tx_id t) +:+ "' is already refunded".
Proof.
  intros Ht Hr. unfold refundTransaction, TransactionStorage.getTransaction. run.
  rewrite Ht, Hr. run. eexists. repeat split.
Qed.

(** Whatever one step of the loop does, it writes at most a log entry, and
    what it pushes is not an already refunded transaction. *)
Lemma refundTransaction_step act u acc id w o w' :
  refundTransaction act u acc id w = (o, w') →
  transactions w' = transactions w ∧ users w' = users w
  ∧ refundSubmissions w' = refundSubmissions w
  ∧ ∀ l, o = Returned l → notRefunded acc → notRefunded l.
Proof.
  unfold refundTransaction, TransactionStorage.getTransaction. run.
  destruct (transactions w !! id) as [t|]; simpl.
  - destruct (refundedAndNotCancelled t) eqn:Hr; run.
    + intros [= <- <-]. repeat split. by intros l [= <-].
    + destruct (canRefundTransaction u t); simpl; intros [= <- <-]; repeat split.
      * intros l [= <-] Hacc. apply Forall_app. split; [done|]. by constructor.
      * intros l [=].
  - intros [= <- <-]. repeat split. intros l [=].
Qed.

Lemma refundLoop_spec act u ids : ∀ acc w o w',
  forOf ids (refundTransaction act u) acc w = (o, w') →
  transactions w' = transactions w ∧ users w' = users w
  ∧ refundSubmissions w' = refundSubmissions w
  ∧ ∀ l, o = Returned l → notRefunded acc → notRefunded l.
Proof.
  induction ids as [|id ids IH]; intros acc w o w'.
  - simpl. intros [= <- <-]. repeat split. by intros l [= <-].
  - rewrite forOf_cons.
    destruct (refundTransaction act u acc id w) as [[acc1|e] w1] eqn:E.
    + apply refundTransaction_step in E as (Ht & Hu & Hs & Hacc).
      intros Hrun. apply IH in Hrun as (Ht' & Hu' & Hs' & Hl).
      rewrite Ht', Hu', Hs'. repeat split; try done.
      intros l Ho Hn. apply (Hl l Ho). by apply (Hacc acc1).
    + apply refundTransaction_step in E as (Ht & Hu & Hs & _).
      intros [= <- <-]. repeat split; done.
Qed.

(** On a batch of already refunded transactions the loop pushes nothing. *)
Lemma refundLoop_all_refunded act u ids : ∀ acc w,
  (∀ id, id ∈ ids →
     ∃ t, transactions w !! id = Some t ∧ refundedAndNotCancelled t = true) →
  ∃ w', forOf ids (refundTransaction act u) acc w = (Returned acc, w')
        ∧ transactions w' = transactions w ∧ users w' = users w
        ∧ refundSubmissions w' = refundSubmissions w.
Proof.
  induction ids as [|id ids IH]; intros acc w Hall.
  - by exists w.
  - rewrite forOf_cons. destruct (Hall id) as (t & Ht & Hr); [by left|].
    destruct (refundTransaction_refunded act u acc id w t Ht Hr) as (entry & -> & _).
    destruct (IH acc (set_logs (λ l, l ++ [entry]) w)) as (w' & -> & Hw').
    { intros i Hi. apply Hall. by right. }
    by exists w'.
Qed.

(** What [handleRefundTransactions] hands to the refund integration. *)
Lemma handleRefundTransactions_submits act u req w o w' :
  handleRefundTransactions act u req w = (o, w') →
  transactions w' = transactions w
  ∧ ∃ new, refundSubmissions w' = refundSubmissions w ++ new
           ∧ ∀ s, s ∈ new → notRefunded s.2.
Proof.
  unfold handleRefundTransactions. destruct (transactionIds req) as [ids|].
  - rewrite bind_run.
    destruct (forOf ids (refundTransaction act u) [] w) as [[l|e] w1] eqn:E;
      apply refundLoop_spec in E as (Ht & Hu & Hs & Hl).
    + rewrite bind_run. unfold UserStorage.getUser. run.
      destruct (users w1 !! token_id u) as [usr|]; simpl.
      * destruct (getRefundImpl (tenantID u)) as [rc|]; run.
        -- intros [= <- <-]. simpl. split; [done|]. rewrite Hs. eexists. split; [done|].
           intros s Hel. apply list_elem_of_singleton in Hel as ->. simpl.
           apply (Hl l eq_refl). constructor.
        -- intros [= <- <-]. split; [done|]. exists []. rewrite app_nil_r.
           split; [done|]. intros s Hel. by apply elem_of_nil in Hel.
      * intros [= <- <-]. split; [done|]. exists []. rewrite app_nil_r.
        split; [done|]. intros s Hel. by apply elem_of_nil in Hel.
    + intros [= <- <-]. split; [done|]. exists []. rewrite app_nil_r.
      split; [done|]. intros s Hel. by apply elem_of_nil in Hel.
  - unfold throw. intros [= <- <-]. split; [done|]. exists []. rewrite app_nil_r.
    split; [done|]. intros s Hel. by apply elem_of_nil in Hel.
Qed.

(** C3 (amended): a transaction whose [refundData] has a non-empty
    [refundId] and a status other than CANCELLED is skipped by refund
    submission, whatever the integrations of the tenant: the loop body
    logs an error, pushes nothing and does not throw, and whatever
    [handleRefundTransactions] then does, the transaction is in no list
    handed to the refund integration and the store keeps it.  Deletion
    rejects it when the tenant has a refund integration that refuses its
    deletion: the loop body logs, counts it in [inError] and does not mark
    it, and after [deleteTransactions] it is still in the store. *)
Theorem C3_refunded_transaction_is_skipped act u w id t :
  transactions w !! id = Some t →
  refundedAndNotCancelled t = true →
  (∀ acc, ∃ entry,
     refundTransaction act u acc id w = (Returned acc, set_logs (λ l, l ++ [entry]) w)
     ∧ level entry = Some ERROR)
  ∧ (∀ req o w',
       handleRefundTransactions act u req w = (o, w') →
       transactions w' !! id = Some t
       ∧ ∃ new, refundSubmissions w' = refundSubmissions w ++ new
                ∧ ∀ s, s ∈ new → t ∉ s.2)
  ∧ (∀ rc,
       getRefundImpl (tenantID u) = Some rc →
       canBeDeleted rc t = false →
       (∀ bi td r, ∃ entry,
          deleteTransaction act u (Some rc) bi (td, r) id w
            = (Returned (td, incError r), set_logs (λ l, l ++ [entry]) w)
          ∧ level entry = Some ERROR)
       ∧ (∀ ids, ∃ res w',
            deleteTransactions act u ids w = (Returned res, w')
            ∧ transactions w' !! id = Some t
            ∧ Z.of_nat (length (List.filter (Z.eqb id) ids)) ≤ inError res)).
Proof.
  intros Ht Hr. split; [|split].
  - intros acc. destruct (refundTransaction_refunded act u acc id w t Ht Hr)
      as (entry & ? & ? & _). by exists entry.
  - intros req o w' Hrun.
    apply handleRefundTransactions_submits in Hrun as (Hkeep & new & Hnew & Hall).
    rewrite Hkeep. split; [done|]. exists new. split; [done|].
    intros s Hs Hel. specialize (Hall s Hs). unfold notRefunded in Hall.
    rewrite Forall_forall in Hall. specialize (Hall t Hel). congruence.
  - intros rc Hrc Hdel.
    assert (Hin : ∀ bi, ineligible (Some rc) bi (transactions w) id = true).
    { intros bi. unfold ineligible. rewrite Ht. simpl. by rewrite Hdel. }
    split.
    + intros bi td r. by apply deleteTransaction_ineligible.
    + intros ids.
      destruct (deleteTransactions_rejects act u ids w id)
        as (res & w' & Hrun & Hkeep & Hcnt).
      { rewrite Hrc. apply Hin. }
      exists res, w'. by rewrite Hkeep, Ht.
Qed.

(** C9 (amended): the refund capability check is evaluated only for
    transactions that exist and are not already refunded: on an id that is
    missing or already refunded the loop body does the same under any
    capability checker.  For a batch in which every requested id is
    already refunded, no authorization error is raised, whoever the caller
    and whatever the tenant, and when the acting user exists and the
    tenant has a refund integration, one that accepts nothing out of
    nothing, the integration is invoked with an empty list and the
    response is a success with [inSuccess = 0]. *)
Theorem C9_refunded_only_batch_submits_nothing act u ids w :
  (∀ (Auth' : Authorizations) acc id,
     (transactions w !! id = None ∨
      ∃ t, transactions w !! id = Some t ∧ refundedAndNotCancelled t = true) →
     @refundTransaction Auth' act u acc id w = @refundTransaction Auth act u acc id w)
  ∧ ((∀ id, id ∈ ids →
        ∃ t, transactions w !! id = Some t ∧ refundedAndNotCancelled t = true) →
     ∀ usr rc,
       users w !! token_id u = Some usr →
       getRefundImpl (tenantID u) = Some rc →
       refund rc (tenantID u) (user_id usr) [] = [] →
       ∃ w',
         handleRefundTransactions act u {| transactionIds := Some ids |} w
           = (Returned {| refund_status := REST_RESPONSE_SUCCESS;
                          refund_inSuccess := 0;
                          refund_inError := None |}, w')
         ∧ refundSubmissions w' = refundSubmissions w ++ [(user_id usr, [])])
  ∧ ((∀ id, id ∈ ids →
        ∃ t, transactions w !! id = Some t ∧ refundedAndNotCancelled t = true) →
     ∀ a e m v,
       (handleRefundTransactions act u {| transactionIds := Some ids |} w).1
         ≠ Thrown (AppAuthError a e m v)).
Proof.
  split; [|split].
  - intros Auth' acc id Hcase.
    unfold refundTransaction, TransactionStorage.getTransaction. run.
    destruct Hcase as [->|(t & -> & Hr)]; [reflexivity|]. by rewrite Hr.
  - intros Hall usr rc Husr Hrc Hnil.
    unfold handleRefundTransactions. simpl. rewrite bind_run.
    destruct (refundLoop_all_refunded act u ids [] w Hall) as (w1 & -> & Ht & Hu & Hs).
    rewrite bind_run. unfold UserStorage.getUser. run. rewrite Hu, Husr. simpl.
    rewrite Hrc. run. rewrite Hnil. simpl. eexists. split; [reflexivity|].
    simpl. by rewrite Hs.
  - intros Hall a e m v.
    unfold handleRefundTransactions. simpl. rewrite bind_run.
    destruct (refundLoop_all_refunded act u ids [] w Hall) as (w1 & -> & Ht & Hu & Hs).
    rewrite bind_run. unfold UserStorage.getUser. run.
    destruct (users w1 !! token_id u); simpl; [|discriminate].
    destruct (getRefundImpl (tenantID u)); run; discriminate.
Qed.

(** ** CDR push *)

Ltac push_unfold :=
  unfold handlePushTransactionCdr, UtilsService.assertIdIsProvided,
    UtilsService.assertObjectExists, TransactionStorage.getTransaction,
    ChargingStationStorage.getChargingStation, TransactionStorage.saveTransaction.

(** A push that returns passed every check, handed the transaction to the
    roaming collaborator once and saved it with the collaborator's
    [ocpiData]. *)
Lemma handlePushTransactionCdr_returned act u req w r w' id :
  handlePushTransactionCdr act u req w = (Returned r, w') →
  transactionId req = Some id →
  ∃ t cs o',
    canUpdateTransaction u = true
    ∧ transactions w !! id = Some t
    ∧ ChargingStationStorage.stored (chargingStations w) (chargeBoxID t) = Some cs
    ∧ issuer t = true
    ∧ cdrPushed t = false
    ∧ transactions w' = <[tx_id t := withOcpiData t o']> (transactions w)
    ∧ chargingStations w' = chargingStations w
    ∧ cdrPushes w' = cdrPushes w ++ [tx_id t].
Proof.
  intros Hrun Hid. revert Hrun. push_unfold. rewrite Hid.
  run. destruct (canUpdateTransaction u); simpl; [|intros [=]].
  run. destruct (transactions w !! id) as [t|] eqn:Ht; run; [|intros [=]].
  destruct (ChargingStationStorage.stored (chargingStations w) (chargeBoxID t))
    as [cs|] eqn:Hcs; run; [|intros [=]].
  destruct (issuer t) eqn:Hi; simpl; [|intros [=]].
  destruct (ocpiData t) as [o|] eqn:Ho; simpl; [|intros [=]].
  destruct (truthy (cdr o ≫= cdr_id)) eqn:Hc; simpl; [intros [=]|].
  unfold processOCPITransaction. run.
  destruct (roamingPush (tenantID u) t cs END) as [e|o'] eqn:Hproc;
    run; [intros [=]|].
  intros [= <- <-]. exists t, cs, o'. simpl. repeat split; try done.
  unfold cdrPushed. by rewrite Ho.
Qed.

(** A push of a transaction whose CDR id is set throws after the checks
    and before anything is written or sent. *)
Lemma handlePushTransactionCdr_pushed act u req w id t cs :
  transactionId req = Some id →
  canUpdateTransaction u = true →
  transactions w !! id = Some t →
  ChargingStationStorage.stored (chargingStations w) (chargeBoxID t) = Some cs →
  issuer t = true →
  cdrPushed t = true →
  handlePushTransactionCdr act u req w
    = (Thrown (AppError TRANSACTION_CDR_ALREADY_PUSHED
                 ("The CDR of the transaction ID '" +:+ pretty (tx_id t)
                    +:+ "' has already been pushed")
                 "handlePushTransactionCdr"), w).
Proof.
  intros Hid Hauth Ht Hcs Hi Hp. push_unfold. rewrite Hid. run. rewrite Hauth. simpl.
  run. rewrite Ht. run. rewrite Hcs. run. rewrite Hi. simpl.
  unfold cdrPushed in Hp. destruct (ocpiData t) as [o|]; [|discriminate].
  simpl in Hp. simpl. by rewrite Hp.
Qed.

(** C6: when a first push of a transaction succeeds and leaves the stored
    transaction with its [ocpiData.cdr.id] set, the CDR was handed to the
    roaming collaborator once, and a second push of the same transaction
    fails with the already-pushed error and changes nothing: no CDR is
    sent again. *)
Theorem C6_second_cdr_push_is_rejected act u req w r w' id t' :
  handlePushTransactionCdr act u req w = (Returned r, w') →
  transactionId req = Some id →
  transactions w' !! id = Some t' →
  cdrPushed t' = true →
  cdrPushes w' = cdrPushes w ++ [id]
  ∧ ∃ msg,
      handlePushTransactionCdr act u req w'
        = (Thrown (AppError TRANSACTION_CDR_ALREADY_PUSHED msg "handlePushTransactionCdr"),
           w').
Proof.
  intros Hrun Hid Ht' Hp.
  destruct (handlePushTransactionCdr_returned act u req w r w' id Hrun Hid)
    as (t & cs & o' & Hauth & Ht & Hcs & Hi & Hnot & Hw' & Hst & Hsent).
  rewrite Hw' in Ht'.
  destruct (decide (tx_id t = id)) as [E|Hne].
  - rewrite E in *. rewrite lookup_insert_eq in Ht'. injection Ht' as <-.
    split; [done|]. eexists.
    apply (handlePushTransactionCdr_pushed act u req w' id (withOcpiData t o') cs);
      try done.
    + by rewrite Hw', lookup_insert_eq.
    + by rewrite Hst.
  - rewrite lookup_insert_ne in Ht' by done. congruence.
Qed.

(** ** In-error query *)

Context {Queries : TransactionQueries}.

(** C8: an authorized in-error query returns, whatever the page size
    asked for, the first hundred entries at most of what the store
    answered. *)
Theorem C8_in_error_result_is_capped u req w :
  canListTransactionsInError u = true →
  ∃ d,
    handleGetTransactionsInError u req w = (Returned d, w)
    ∧ (length (result d) ≤ 100)%nat
    ∧ result d =
        take 100 (result (filterTransactionsResponse
          (getTransactionsInError (transactions w) (inErrorFilter u req)
             {| limit := Limit req; skip := Skip req; sort := Sort req;
                onlyRecordCount := OnlyRecordCount req |}) u)).
Proof.
  intros Hauth. unfold handleGetTransactionsInError. rewrite Hauth. simpl. run.
  set (d := filterTransactionsResponse _ u).
  destruct (100 <? length (result d))%nat eqn:Hlen.
  - eexists. split; [reflexivity|]. simpl. split; [|reflexivity].
    rewrite length_take. lia.
  - apply Nat.ltb_ge in Hlen. exists d. split; [reflexivity|]. split; [done|].
    by rewrite take_ge.
Qed.

Lemma inErrorFilter_issuer u req :
  inErrorFilter u req !! "issuer" = Some (VBool true).
Proof.
  unfold inErrorFilter. cbv zeta.
  repeat (rewrite lookup_insert_ne by done).
  repeat case_match; repeat (rewrite lookup_insert_ne by done); apply lookup_insert_eq.
Qed.

(** C10: whatever the request holds, the filter that
    [handleGetTransactionsInError] builds has [issuer] set to [true], and
    it is with this filter, and the paging of the request, that the handler
    asks the store: for an authorized caller the answer is the store's
    answer to it, shaped for the caller and cut to a hundred entries, and
    the store is not asked for a caller who is refused.  So with a store
    that honours the filter and a response shaping that brings no
    transaction of another organization in, the handler returns issuer
    transactions only. *)
Theorem C10_in_error_query_is_issuer_only u req w :
  inErrorFilter u req !! "issuer" = Some (VBool true)
  ∧ handleGetTransactionsInError u req w
      = (if canListTransactionsInError u
         then
           let answer :=
             filterTransactionsResponse
               (getTransactionsInError (transactions w) (inErrorFilter u req)
                  {| limit := Limit req; skip := Skip req; sort := Sort req;
                     onlyRecordCount := OnlyRecordCount req |}) u in
           (Returned {| count := count answer; result := take 100 (result answer) |}, w)
         else
           (Thrown (AppAuthError LIST TRANSACTIONS "handleGetTransactionsInError" None), w))
  ∧ (storeHonoursIssuer → shapingKeepsIssuer →
     match handleGetTransactionsInError u req w with
     | (Returned d, _) => allIssuer d
     | (Thrown _, _) => canListTransactionsInError u = false
     end).
Proof.
  split; [apply inErrorFilter_issuer|]. split.
  - unfold handleGetTransactionsInError.
    destruct (canListTransactionsInError u); simpl; [|reflexivity]. run.
    set (d := filterTransactionsResponse _ u).
    destruct (100 <? length (result d))%nat eqn:Hlen; [reflexivity|].
    apply Nat.ltb_ge in Hlen. rewrite take_ge by done. by destruct d.
  - intros Hstore Hshape. unfold handleGetTransactionsInError.
    destruct (canListTransactionsInError u); simpl; [|reflexivity]. run.
    set (d := filterTransactionsResponse _ u).
    assert (Hd : allIssuer d).
    { apply Hshape, Hstore, inErrorFilter_issuer. }
    destruct (100 <? length (result d))%nat; [|exact Hd].
    unfold allIssuer in *. simpl. by apply Forall_take.
Qed.

(** ** CSV export *)

Context {Fmt : Formatting}.

(** C7 (amended): the row of a transaction without [stop] has the seven
    cells of the transaction itself (id, station, connector, hashed user
    id, user full name, start date, start time) followed by seven empty
    cells, one for each stop-derived column. *)
Theorem C7_row_of_active_transaction u t :
  stop t = None →
  rowCells t =
    [ pretty (tx_id t); chargeBoxID t; pretty (tx_connectorId t);
      match user t with Some usr => Cypher_hash (user_id usr) | None => "" end;
      match user t with Some usr => buildUserFullName usr false | None => "" end;
      moment_format (timestamp t) "YYYY-MM-DD";
      moment_format (timestamp t) "HH:mm:ss";
      ""; ""; ""; ""; ""; ""; "" ]
  ∧ stopCells t = replicate 7 ""
  ∧ convertToCSV u [t] false = String.concat CSV_SEPARATOR (rowCells t) +:+ CRLF.
Proof.
  intros Hstop.
  assert (Hs : stopCells t = replicate 7 "").
  { unfold stopCells. by rewrite Hstop. }
  split; [|split; [exact Hs|]].
  - unfold rowCells, startCells. by rewrite Hs.
  - reflexivity.
Qed.

Lemma sublist_all_length {A} (f : A → bool) (l1 l2 : list A) :
  l1 `sublist_of` l2 → Forall (λ x, f x = true) l1 →
  (length l1 ≤ length (List.filter f l2))%nat.
Proof.
  induction 1 as [|x l1 l2 _ IH|x l1 l2 _ IH]; intros Hall; simpl.
  - lia.
  - apply Forall_cons in Hall as [-> Hall]. simpl. specialize (IH Hall). lia.
  - specialize (IH Hall). destruct (f x); simpl; lia.
Qed.
End Properties.

(** * The properties on the sample data *)

Import Samples.

(** The scenarios of the specification. *)
Example scenario_501_refunded_is_not_deleted :
  (@deleteTransactions allIntegrations "delete" admin [501] (world [tx501])).1
    = Returned {| inSuccess := 0; inError := 1 |}
  ∧ transactions
      (@deleteTransactions allIntegrations "delete" admin [501] (world [tx501])).2 !! 501
    = Some tx501.
Proof. split; vm_compute; reflexivity. Qed.

Example scenario_502_connector_is_released :
  (@deleteTransactions allIntegrations "delete" admin [502] (world [tx502])).1
    = Returned {| inSuccess := 1; inError := 0 |}
  ∧ chargingStations
      (@deleteTransactions allIntegrations "delete" admin [502] (world [tx502])).2 !! "S1"
    = Some [ {| connectorId := 1; currentTransactionID := None |};
             {| connectorId := 2; currentTransactionID := None |} ].
Proof. split; vm_compute; reflexivity. Qed.

Example scenario_503_refund_is_submitted :
  (@handleRefundTransactions allowAll allIntegrations "refund" admin
     {| transactionIds := Some [503] |} (world [tx503])).1
    = Returned {| refund_status := REST_RESPONSE_SUCCESS;
                  refund_inSuccess := 1; refund_inError := None |}.
Proof. vm_compute. reflexivity. Qed.

(** C1: a batch that names a missing transaction.  The transaction 503 can
    be refunded, and is when asked for alone; with the missing id 999 in
    front, reading [transaction.user] of the absent record throws, nothing
    is logged and 503 is never handed to the refund integration. *)
Theorem C1_missing_transaction_aborts_refund :
  @handleRefundTransactions allowAll allIntegrations "refund" admin
    {| transactionIds := Some [999; 503] |} (world [tx503])
    = (Thrown (TypeError "user"), world [tx503])
  ∧ (@handleRefundTransactions allowAll allIntegrations "refund" admin
       {| transactionIds := Some [503] |} (world [tx503])).1
    = Returned {| refund_status := REST_RESPONSE_SUCCESS;
                  refund_inSuccess := 1; refund_inError := None |}.
Proof. split; reflexivity. Qed.

Lemma C2_witness :
  hasInvoice tx503 = true
  ∧ ∃ res w',
      @deleteTransactions allIntegrations "delete" admin [503; 504] (world [tx503; tx504])
        = (Returned res, w')
      ∧ transactions w' !! 503 = Some tx503
      ∧ 1 ≤ inError res.
Proof.
  split; [reflexivity|].
  destruct (@C2_invoiced_transaction_is_rejected allIntegrations "delete" admin
              [503; 504] (world [tx503; tx504]) 503 tx503 billingImpl
              eq_refl eq_refl eq_refl) as [_ (res & w' & Hrun & Hkeep & Hcnt)].
  exists res, w'. split; [exact Hrun|]. split; [exact Hkeep|exact Hcnt].
Defined.

(** C2, as stated for every configuration: a tenant without billing
    integration; the invoiced transaction 503 is deleted and counted in
    [inSuccess]. *)
Lemma C2_counterexample :
  hasInvoice tx503 = true
  ∧ transactions (world [tx503]) !! 503 = Some tx503
  ∧ (@deleteTransactions noIntegrations "delete" admin [503] (world [tx503])).1
      = Returned {| inSuccess := 1; inError := 0 |}
  ∧ transactions
      (@deleteTransactions noIntegrations "delete" admin [503] (world [tx503])).2 !! 503
      = None.
Proof. repeat split; vm_compute; reflexivity. Qed.

Lemma C3_witness :
  refundedAndNotCancelled tx501 = true
  ∧ (∃ entry,
       @refundTransaction allowAll "refund" admin [] 501 (world [tx501])
         = (Returned [], set_logs (λ l, l ++ [entry]) (world [tx501]))
       ∧ level entry = Some ERROR)
  ∧ canBeDeleted refundImpl tx501 = false
  ∧ ∃ res w',
      @deleteTransactions allIntegrations "delete" admin [501] (world [tx501])
        = (Returned res, w')
      ∧ transactions w' !! 501 = Some tx501
      ∧ 1 ≤ inError res.
Proof.
  split; [reflexivity|]. split.
  { exact (proj1 (@C3_refunded_transaction_is_skipped allowAll noIntegrations "refund"
                    admin (world [tx501]) 501 tx501 eq_refl eq_refl) []). }
  split; [reflexivity|].
  destruct (@C3_refunded_transaction_is_skipped allowAll allIntegrations "delete" admin
              (world [tx501]) 501 tx501 eq_refl eq_refl) as (_ & _ & Hdel).
  exact (proj2 (Hdel refundImpl eq_refl eq_refl) [501]).
Defined.

(** C3, as stated for deletion: a tenant without refund integration; the
    refunded transaction 501 (refund R1, submitted) is removed from the
    store and counted in [inSuccess]. *)
Lemma C3_counterexample :
  refundedAndNotCancelled tx501 = true
  ∧ transactions (world [tx501]) !! 501 = Some tx501
  ∧ (@deleteTransactions noIntegrations "delete" admin [501] (world [tx501])).1
      = Returned {| inSuccess := 1; inError := 0 |}
  ∧ transactions
      (@deleteTransactions noIntegrations "delete" admin [501] (world [tx501])).2 !! 501
      = None.
Proof. repeat split; vm_compute; reflexivity. Qed.

Lemma C4_witness :
  ∃ res w',
    @deleteTransactions allIntegrations "delete" admin [501; 502; 503; 504; 9]
      (world [tx501; tx502; tx503; tx504]) = (Returned res, w')
    ∧ inError res = 3
    ∧ inSuccess res = 5 - 3.
Proof.
  destruct (@C4_delete_accounting allIntegrations "delete" admin [501; 502; 503; 504; 9]
              (world [tx501; tx502; tx503; tx504]))
    as (res & w' & Hrun & Herr & Hall & _).
  exists res, w'. split; [exact Hrun|]. split; [exact Herr|].
  apply Hall. reflexivity.
Defined.

(** C4, with ineligibility as stated: a tenant without billing integration
    and the batch [[503]]; one id, counted ineligible for its invoice, yet
    the store removes it and the accounting is one success, no error. *)
Lemma C4_counterexample :
  Z.of_nat (length (List.filter
              (ineligibleAsStated None (transactions (world [tx503]))) [503])) = 1
  ∧ (@deleteTransactions noIntegrations "delete" admin [503] (world [tx503])).1
      = Returned {| inSuccess := 1; inError := 0 |}
  ∧ transactions
      (@deleteTransactions noIntegrations "delete" admin [503] (world [tx503])).2 !! 503
      = None
  ∧ (@deleteTransactions noIntegrations "delete" admin [503] (world [tx503])).1
      ≠ Returned {| inSuccess := 1 - 1; inError := 1 |}.
Proof. repeat split; try (vm_compute; reflexivity). vm_compute. discriminate. Qed.

Lemma C5_witness :
  stop tx502 = None
  ∧ chargeBox tx502 = Some "S1"
  ∧ (∃ res w' cs' c',
       @deleteTransactions allIntegrations "delete" admin [502; 507] busyWorld
         = (Returned res, w')
       ∧ transactions w' !! 502 = None
       ∧ ChargingStationStorage.stored (chargingStations w') "S1" = Some cs'
       ∧ Utils.getConnectorFromID cs' 1 = Some c'
       ∧ currentTransactionID c' = None)
  ∧ chargingStations
      (@deleteTransactions allIntegrations "delete" admin [502; 507] busyWorld).2 !! "S1"
    = Some [ {| connectorId := 1; currentTransactionID := None |};
             {| connectorId := 2; currentTransactionID := None |} ].
Proof.
  split; [reflexivity|]. split; [reflexivity|]. split; [|vm_compute; reflexivity].
  apply (@C5_connector_released_on_delete allIntegrations "delete" admin [502; 507]
           busyWorld 502 tx502 "S1"
           {| cs_id := "S1";
              connectors := [ {| connectorId := 1; currentTransactionID := Some 502 |};
                              {| connectorId := 2; currentTransactionID := Some 507 |} ] |}
           {| connectorId := 1; currentTransactionID := Some 502 |});
    try reflexivity.
  by left.
Defined.

(** C5, for the station the store holds: the active transaction 502 comes
    without its station attached while connector 1 of S1 names it; 502 is
    deleted, nothing is saved to the station store and the connector still
    names 502. *)
Lemma C5_counterexample :
  stop tx502_bare = None
  ∧ occupiesConnector (world [tx502_bare]) tx502_bare
  ∧ (@deleteTransactions noIntegrations "delete" admin [502] (world [tx502_bare])).1
      = Returned {| inSuccess := 1; inError := 0 |}
  ∧ transactions
      (@deleteTransactions noIntegrations "delete" admin [502] (world [tx502_bare])).2 !! 502
      = None
  ∧ chargingStations
      (@deleteTransactions noIntegrations "delete" admin [502] (world [tx502_bare])).2
      = chargingStations (world [tx502_bare])
  ∧ occupiesConnector
      (@deleteTransactions noIntegrations "delete" admin [502] (world [tx502_bare])).2
      tx502_bare.
Proof.
  repeat split; try (vm_compute; reflexivity).
  - exists S1, {| connectorId := 1; currentTransactionID := Some 502 |}.
    repeat split; vm_compute; reflexivity.
  - exists S1, {| connectorId := 1; currentTransactionID := Some 502 |}.
    repeat split; vm_compute; reflexivity.
Qed.

Lemma C6_witness :
  @handlePushTransactionCdr allowAll allIntegrations "push" admin push504 (world [tx504])
    = (Returned REST_RESPONSE_SUCCESS, pushed504)
  ∧ cdrPushes pushed504 = cdrPushes (world [tx504]) ++ [504]
  ∧ ∃ msg,
      @handlePushTransactionCdr allowAll allIntegrations "push" admin push504 pushed504
        = (Thrown (AppError TRANSACTION_CDR_ALREADY_PUSHED msg "handlePushTransactionCdr"),
           pushed504).
Proof.
  split; [reflexivity|].
  exact (@C6_second_cdr_push_is_rejected allowAll allIntegrations "push" admin push504
           (world [tx504]) REST_RESPONSE_SUCCESS pushed504 504
           (withOcpiData tx504 {| cdr := Some {| cdr_id := Some "CDR-504" |} |})
           eq_refl eq_refl eq_refl eq_refl).
Defined.

Lemma C7_witness :
  stop tx502 = None
  ∧ @rowCells plain tx502 =
      [ "502"; "S1"; "1"; "#U1"; "Alice Martin";
        "YYYY-MM-DD:1600000000"; "HH:mm:ss:1600000000";
        ""; ""; ""; ""; ""; ""; "" ].
Proof.
  split; [reflexivity|].
  exact (proj1 (@C7_row_of_active_transaction plain admin tx502 eq_refl)).
Defined.

(** C7, with nine stop-derived columns: the row of the active transaction
    502 has fourteen cells, seven of them empty; no nine cells of it are
    all empty. *)
Lemma C7_counterexample :
  stop tx502 = None
  ∧ length (@rowCells plain tx502) = 14%nat
  ∧ length (@stopCells plain tx502) = 7%nat
  ∧ ¬ @nineEmptyStopCells plain tx502.
Proof.
  repeat split.
  intros (cells & Hsub & Hlen & Hall).
  assert (Hempty : Forall (λ c, String.eqb c "" = true) cells).
  { eapply Forall_impl; [exact Hall|]. by intros c ->. }
  pose proof (sublist_all_length _ _ _ Hsub Hempty) as Hle. rewrite Hlen in Hle.
  assert (Hseven : length (List.filter (λ c, String.eqb c "") (@rowCells plain tx502))
                   = 7%nat) by (vm_compute; reflexivity).
  rewrite Hseven in Hle. lia.
Qed.

Lemma C8_witness :
  ∃ d,
    @handleGetTransactionsInError allowAll floodStore admin inErrorRequest (world [tx501])
      = (Returned d, world [tx501])
    ∧ (length (result d) ≤ 100)%nat
    ∧ length (result d) = 100%nat.
Proof.
  destruct (@C8_in_error_result_is_capped allowAll floodStore admin inErrorRequest
              (world [tx501]) eq_refl) as (d & Hrun & Hle & Hres).
  exists d. split; [exact Hrun|]. split; [exact Hle|]. rewrite Hres. reflexivity.
Defined.

Lemma C9_witness :
  ∃ w',
    @handleRefundTransactions denyRefund allIntegrations "refund" admin
      {| transactionIds := Some [501; 501] |} (world [tx501])
      = (Returned {| refund_status := REST_RESPONSE_SUCCESS;
                     refund_inSuccess := 0; refund_inError := None |}, w')
    ∧ refundSubmissions w' = [("U1", [])].
Proof.
  apply (proj1 (proj2 (@C9_refunded_only_batch_submits_nothing denyRefund allIntegrations
                         "refund" admin [501; 501] (world [tx501]))))
    with (usr := alice) (rc := refundImpl); try reflexivity.
  intros id Hid. exists tx501. split; [|reflexivity].
  apply elem_of_cons in Hid as [->|Hid]; [reflexivity|].
  apply elem_of_cons in Hid as [->|Hid]; [reflexivity|].
  by apply elem_of_nil in Hid.
Defined.

(** C9, as stated for every such batch: the only id asked for is already
    refunded and the tenant has no refund integration; the request fails,
    and nothing is handed to an integration. *)
Lemma C9_counterexample :
  refundedAndNotCancelled tx501 = true
  ∧ transactions (world [tx501]) !! 501 = Some tx501
  ∧ @handleRefundTransactions allowAll noIntegrations "refund" admin
      {| transactionIds := Some [501] |} (world [tx501])
    = (Thrown (AppError GENERAL_ERROR "No Refund Implementation Found"
                 "handleRefundTransactions"),
       set_logs (λ l, l ++ [Logging.withLevel ERROR
         (logEntry admin (Some alice) "handleRefundTransactions" "refund"
            "Transaction '501' is already refunded")]) (world [tx501]))
  ∧ refundSubmissions
      (@handleRefundTransactions allowAll noIntegrations "refund" admin
         {| transactionIds := Some [501] |} (world [tx501])).2 = [].
Proof. repeat split; vm_compute; reflexivity. Qed.

Lemma issuerStore_honours_issuer : @storeHonoursIssuer issuerStore.
Proof.
  intros m f p Hf. unfold allIssuer. simpl. rewrite Hf.
  apply Forall_forall. intros t Hin.
  apply list_elem_of_In, filter_In in Hin as [_ Hin]. by destruct (issuer t).
Defined.

Lemma issuerStore_keeps_issuer : @shapingKeepsIssuer issuerStore.
Proof. intros d u Hd. exact Hd. Defined.

Lemma C10_witness :
  @inErrorFilter allowAll admin inErrorRequest !! "issuer" = Some (VBool true)
  ∧ @handleGetTransactionsInError allowAll issuerStore admin inErrorRequest
      (world [tx501; tx505])
    = (Returned {| count := 1; result := [tx501] |}, world [tx501; tx505])
  ∧ ∃ d,
      (@handleGetTransactionsInError allowAll issuerStore admin inErrorRequest
         (world [tx501; tx505])).1 = Returned d
      ∧ allIssuer d.
Proof.
  destruct (@C10_in_error_query_is_issuer_only allowAll issuerStore admin inErrorRequest
              (world [tx501; tx505])) as (Hfilter & Hasked & Hreturned).
  split; [exact Hfilter|]. split; [exact Hasked|].
  specialize (Hreturned issuerStore_honours_issuer issuerStore_keeps_issuer).
  destruct (@handleGetTransactionsInError allowAll issuerStore admin inErrorRequest
              (world [tx501; tx505])) as [[d|e] w'] eqn:E.
  - exists d. split; [reflexivity|exact Hreturned].
  - discriminate Hreturned.
Defined.

(** * Further properties *)

Section DeletionProperties.
Context {Auth : Authorizations} {Integ : Integrations}.

Lemma deleteMany_size (ids : list Z) : ∀ (m : gmap Z Transaction),
  size m = ((TransactionStorage.deleteMany ids m).1 + size (TransactionStorage.deleteMany ids m).2)%nat
  ∧ ((TransactionStorage.deleteMany ids m).1 ≤ length ids)%nat.
Proof.
  induction ids as [|i ids IH]; intros m; simpl; [split; lia|].
  destruct (m !! i) eqn:Hi.
  - destruct (IH (delete i m)) as [Hsize Hle].
    destruct (TransactionStorage.deleteMany ids (delete i m)) as [n m'] eqn:E.
    simpl in *. rewrite map_size_delete, Hi in Hsize.
    assert (size m ≠ 0%nat) by (apply map_size_ne_0_lookup_2 with i; by eexists).
    split; lia.
  - destruct (IH m) as [Hsize Hle]. split; [exact Hsize|lia].
Qed.

(** What the store holds once the ids of a batch that pass a test are
    deleted, id by id. *)
Lemma deleteMany_marked_lookup (rejected : Z → bool) (ids : list Z)
    (m : gmap Z Transaction) (id : Z) :
  (TransactionStorage.deleteMany (List.filter (λ i, negb (rejected i)) ids) m).2 !! id
    = if bool_decide (id ∈ ids) && negb (rejected id) then None else m !! id.
Proof.
  destruct (bool_decide (id ∈ ids) && negb (rejected id)) eqn:E.
  - apply andb_true_iff in E as [Hin Hel]. apply bool_decide_eq_true in Hin.
    apply deleteMany_removed. apply list_elem_of_In, filter_In.
    split; [by apply list_elem_of_In|exact Hel].
  - apply deleteMany_other. intros Hel.
    apply list_elem_of_In, filter_In in Hel as [Hin Hel].
    apply list_elem_of_In in Hin. rewrite Hel, andb_true_r in E.
    by apply bool_decide_eq_false in E.
Qed.

(** X1: after [deleteTransactions] the store holds exactly the transactions
    it held, less the ids of the batch that are not ineligible: no id
    outside the batch is removed and no eligible id of the batch is left. *)
Theorem deleteTransactions_final_store act u ids w :
  ∃ res w',
    deleteTransactions act u ids w = (Returned res, w')
    ∧ ∀ id,
        transactions w' !! id =
          if bool_decide (id ∈ ids)
             && negb (ineligible (getRefundImpl (tenantID u)) (getBillingImpl (tenantID u))
                        (transactions w) id)
          then None else transactions w !! id.
Proof.
  destruct (deleteTransactions_spec act u ids w) as (w' & Hrun & Hw').
  eexists _, w'. split; [exact Hrun|]. intros id. rewrite Hw'.
  apply deleteMany_marked_lookup.
Qed.

(** X2: [inSuccess] is the number of records that left the store, and with
    [inError] it never exceeds the size of the batch (an id given twice is
    removed once). *)
Theorem deleteTransactions_counts_removed act u ids w :
  ∃ res w',
    deleteTransactions act u ids w = (Returned res, w')
    ∧ Z.of_nat (size (transactions w)) = Z.of_nat (size (transactions w')) + inSuccess res
    ∧ 0 ≤ inSuccess res ∧ 0 ≤ inError res
    ∧ inSuccess res + inError res ≤ Z.of_nat (length ids).
Proof.
  destruct (deleteTransactions_spec act u ids w) as (w' & Hrun & Hw').
  eexists _, w'. split; [exact Hrun|]. simpl. rewrite Hw'.
  set (rc := getRefundImpl (tenantID u)). set (bi := getBillingImpl (tenantID u)).
  set (marked := List.filter _ ids).
  destruct (deleteMany_size marked (transactions w)) as [Hsize Hle].
  pose proof (filter_split_length (ineligible rc bi (transactions w)) ids) as Hsplit.
  fold marked in Hsplit. repeat split; lia.
Qed.

(** X3: deleting the same batch again removes nothing more: every id is now
    missing or still ineligible, so the second answer is no success and as
    many errors as ids. *)
Theorem deleteTransactions_twice act u ids w :
  ∃ res w' res2 w'',
    deleteTransactions act u ids w = (Returned res, w')
    ∧ deleteTransactions act u ids w' = (Returned res2, w'')
    ∧ inSuccess res2 = 0
    ∧ inError res2 = Z.of_nat (length ids)
    ∧ transactions w'' = transactions w'.
Proof.
  destruct (deleteTransactions_spec act u ids w) as (w' & Hrun & Hw').
  destruct (deleteTransactions_spec act u ids w') as (w'' & Hrun2 & Hw'').
  set (rc := getRefundImpl (tenantID u)) in *. set (bi := getBillingImpl (tenantID u)) in *.
  assert (Hstore : ∀ id, transactions w' !! id
                    = if bool_decide (id ∈ ids) && negb (ineligible rc bi (transactions w) id)
                      then None else transactions w !! id).
  { intros id. rewrite Hw'. apply deleteMany_marked_lookup. }
  assert (Hall : ∀ id, id ∈ ids → ineligible rc bi (transactions w') id = true).
  { intros id Hid. unfold ineligible at 1. rewrite Hstore.
    rewrite bool_decide_eq_true_2 by done. simpl.
    destruct (ineligible rc bi (transactions w) id) eqn:E; simpl; [|done].
    exact E. }
  assert (Hnone : List.filter (λ i, negb (ineligible rc bi (transactions w') i)) ids = []).
  { clear -Hall. induction ids as [|i ids IH]; simpl; [done|].
    rewrite Hall by (by left). simpl. apply IH. intros j Hj. apply Hall. by right. }
  assert (Hevery : List.filter (ineligible rc bi (transactions w')) ids = ids).
  { clear -Hall. induction ids as [|i ids IH]; simpl; [done|].
    rewrite Hall by (by left). f_equal. apply IH. intros j Hj. apply Hall. by right. }
  rewrite Hnone, Hevery in Hrun2. rewrite Hnone in Hw''. simpl in *.
  eexists _, w', _, w''. split; [exact Hrun|]. split; [exact Hrun2|]. done.
Qed.

(** The turn of a rejected id: one error entry, with the message of the
    reason. *)
Lemma deleteTransaction_rejection act u rc bi td res id w :
  ineligible rc bi (transactions w) id = true →
  ∃ entry,
    deleteTransaction act u rc bi (td, res) id w
      = (Returned (td, incError res), set_logs (λ l, l ++ [entry]) w)
    ∧ isErrorLog entry
    ∧ message entry = rejectionMessage rc (transactions w) id.
Proof.
  unfold ineligible, rejectionMessage, deleteTransaction, TransactionStorage.getTransaction.
  intros Hin. run. destruct (transactions w !! id) as [t|] eqn:Ht.
  - unfold blockedByRefund, hasInvoice in *.
    destruct (match rc with Some rc0 => negb (canBeDeleted rc0 t) | None => false end).
    + run. eexists. repeat split.
    + simpl in Hin. rewrite Hin. run. eexists. repeat split.
  - run. eexists. repeat split.
Qed.

Lemma deleteLoop_logs act u rc bi ids : ∀ locals w o w',
  forOf ids (deleteTransaction act u rc bi) locals w = (o, w') →
  ∃ errs,
    logs w' = logs w ++ errs
    ∧ message <$> errs
        = rejectionMessage rc (transactions w)
            <$> List.filter (ineligible rc bi (transactions w)) ids
    ∧ Forall isErrorLog errs.
Proof.
  induction ids as [|id ids IH]; intros [td res] w o w'.
  - simpl. intros [= <- <-]. exists []. by rewrite app_nil_r.
  - rewrite forOf_cons. destruct (ineligible rc bi (transactions w) id) eqn:Hin.
    + destruct (deleteTransaction_rejection act u rc bi td res id w Hin)
        as (entry & -> & Hlevel & Hmsg).
      intros Hrun. apply IH in Hrun as (errs & Hlogs & Hmsgs & Herr).
      change (transactions (set_logs _ w)) with (transactions w) in Hmsgs.
      exists (entry :: errs). split; [|split; [|by constructor]].
      * simpl in Hlogs. by rewrite Hlogs, <- app_assoc.
      * cbn [List.filter]. rewrite Hin, !fmap_cons. by rewrite Hmsg, Hmsgs.
    + destruct (deleteTransaction_eligible act u rc bi td res id w Hin)
        as (w1 & -> & Hw1 & Hl1).
      intros Hrun. apply IH in Hrun as (errs & Hlogs & Hmsgs & Herr).
      exists errs. cbn [List.filter]. rewrite Hin. rewrite Hlogs, Hl1, Hmsgs, Hw1. done.
Qed.

(** X4: every rejected id of the batch is logged with its own reason:
    [deleteTransactions] appends one error entry for each occurrence of an
    ineligible id, in the order of the batch and with the message of the
    reason of its rejection (missing, refunded, billed), then the summary
    of the accounting, and nothing else; the error entries are as many as
    the returned [inError]. *)
Theorem deleteTransactions_logs_each_rejection act u ids w :
  ∃ res w' errs,
    deleteTransactions act u ids w = (Returned res, w')
    ∧ logs w' = logs w ++ errs ++ logActionsResponse (tenantID u) res
    ∧ message <$> errs
        = rejectionMessage (getRefundImpl (tenantID u)) (transactions w)
            <$> List.filter
                  (ineligible (getRefundImpl (tenantID u)) (getBillingImpl (tenantID u))
                     (transactions w)) ids
    ∧ Forall isErrorLog errs
    ∧ Z.of_nat (length errs) = inError res.
Proof.
  unfold deleteTransactions. cbv zeta. rewrite bind_run.
  set (rc := getRefundImpl (tenantID u)). set (bi := getBillingImpl (tenantID u)).
  destruct (deleteLoop_spec act u rc bi ids [] {| inSuccess := 0; inError := 0 |} w)
    as (w1 & Hrun & Hw1).
  destruct (deleteLoop_logs act u rc bi ids _ w _ w1 Hrun) as (errs & Hlogs & Hmsgs & Herr).
  rewrite Hrun. simpl. rewrite bind_run. unfold TransactionStorage.deleteTransactions.
  destruct (TransactionStorage.deleteMany _ (transactions w1)) as [n m'] eqn:E.
  run. eexists _, _, errs. split; [reflexivity|]. simpl.
  rewrite Hlogs, <- app_assoc. split; [done|]. split; [exact Hmsgs|]. split; [exact Herr|].
  apply (f_equal length) in Hmsgs. rewrite !length_fmap in Hmsgs. by rewrite Hmsgs.
Qed.

Lemma deleteTransaction_no_release act u rc bi locals id w o w' :
  (∀ t, transactions w !! id = Some t → occupant (chargingStations w) t = false) →
  deleteTransaction act u rc bi locals id w = (o, w') →
  chargingStations w' = chargingStations w.
Proof.
  intros Hocc. destruct locals as [td res].
  unfold deleteTransaction, TransactionStorage.getTransaction. run.
  destruct (transactions w !! id) as [t|] eqn:Ht; run; [|by intros [= <- <-]].
  specialize (Hocc t eq_refl). unfold occupant in Hocc.
  destruct (match rc with Some rc0 => negb (canBeDeleted rc0 t) | None => false end);
    run; [by intros [= <- <-]|].
  destruct (truthy bi && truthy (billingData t ≫= invoiceID)); run; [by intros [= <- <-]|].
  destruct (stop t); simpl; [by intros [= <- <-]|].
  unfold TransactionStorage.chargeBoxOf, ChargingStationStorage.getChargingStation.
  destruct (chargeBox t) as [k|]; run; [|by intros [= <- <-]]. simpl in Hocc.
  destruct (ChargingStationStorage.stored (chargingStations w) k) as [cs|]; run;
    [|by intros [= <- <-]].
  rewrite Hocc. run. by intros [= <- <-].
Qed.

(** X5: the station store is written for occupants only: a batch in which
    no transaction is an active occupant of the connector of the station it
    is fetched with (completed transactions, transactions without station,
    a connector that names another transaction) leaves every charging
    station as it is. *)
Theorem deleteTransactions_writes_stations_for_occupants_only act u ids w :
  (∀ id t, id ∈ ids → transactions w !! id = Some t →
           occupant (chargingStations w) t = false) →
  ∃ res w',
    deleteTransactions act u ids w = (Returned res, w')
    ∧ chargingStations w' = chargingStations w.
Proof.
  intros Hocc. unfold deleteTransactions. cbv zeta. rewrite bind_run.
  set (rc := getRefundImpl (tenantID u)). set (bi := getBillingImpl (tenantID u)).
  destruct (deleteLoop_spec act u rc bi ids [] {| inSuccess := 0; inError := 0 |} w)
    as (w1 & Hrun & Hw1).
  assert (Hst : chargingStations w1 = chargingStations w).
  { clear Hw1. revert Hrun Hocc.
    generalize ([] : list Z, {| inSuccess := 0; inError := 0 |}).
    generalize (Returned
      ([] ++ List.filter (λ i, negb (ineligible rc bi (transactions w) i)) ids,
       {| inSuccess := inSuccess {| inSuccess := 0; inError := 0 |};
          inError := inError {| inSuccess := 0; inError := 0 |}
            + Z.of_nat (length (List.filter (ineligible rc bi (transactions w)) ids)) |})).
    revert w. induction ids as [|id ids IH]; intros w o locals.
    - simpl. by intros [= <- <-].
    - rewrite forOf_cons.
      destruct (deleteTransaction act u rc bi locals id w) as [[locals1|e] w2] eqn:E.
      + intros Hrun Hocc.
        assert (Hw2 : transactions w2 = transactions w).
        { destruct locals as [td res].
          destruct (ineligible rc bi (transactions w) id) eqn:Hin.
          - destruct (deleteTransaction_ineligible act u rc bi td res id w Hin)
              as (entry & Hstep & _). rewrite Hstep in E. by injection E as <- <-.
          - destruct (deleteTransaction_eligible act u rc bi td res id w Hin)
              as (w3 & Hstep & Hw3 & _). rewrite Hstep in E. by injection E as <- <-. }
        assert (Hs2 : chargingStations w2 = chargingStations w).
        { eapply deleteTransaction_no_release; [|exact E].
          intros t. apply Hocc. by left. }
        rewrite (IH w2 o locals1 Hrun); [exact Hs2|].
        intros j t Hj. rewrite Hw2, Hs2. apply Hocc. by right.
      + intros [= <- <-] Hocc. eapply deleteTransaction_no_release; [|exact E].
        intros t. apply Hocc. by left. }
  rewrite Hrun. simpl. rewrite bind_run. unfold TransactionStorage.deleteTransactions.
  destruct (TransactionStorage.deleteMany _ (transactions w1)) as [n m'] eqn:E.
  run. eexists _, _. split; [reflexivity|]. exact Hst.
Qed.

(** X6: the single delete: an unauthorized caller and a missing transaction
    both end in an error with nothing written, the missing transaction as a
    not-found error and not as a counted [inError]; otherwise the handler
    answers the accounting of the batch of that one id, which sums to 1. *)
Theorem handleDeleteTransaction_outcomes act u id w :
  (canDeleteTransaction u = false →
     handleDeleteTransaction act u id w
       = (Thrown (AppAuthError DELETE TRANSACTION "handleDeleteTransaction"
                    (Some (pretty id))), w))
  ∧ (canDeleteTransaction u = true → transactions w !! id = None →
       handleDeleteTransaction act u id w
         = (Thrown (AppError OBJECT_DOES_NOT_EXIST_ERROR
                      ("Transaction with ID '" +:+ pretty id +:+ "' does not exist")
                      "handleDeleteTransaction"), w))
  ∧ (canDeleteTransaction u = true → is_Some (transactions w !! id) →
       ∃ res w',
         handleDeleteTransaction act u id w = (Returned res, w')
         ∧ inSuccess res + inError res = 1
         ∧ (inSuccess res = 1 ↔ transactions w' !! id = None)).
Proof.
  unfold handleDeleteTransaction, TransactionStorage.getTransaction,
    UtilsService.assertObjectExists.
  split; [|split].
  - by intros ->.
  - intros -> Hnone. simpl. run. by rewrite Hnone.
  - intros -> [t Ht]. simpl. run. rewrite Ht. run.
    destruct (deleteTransactions_spec act u [id] w) as (w' & Hrun & Hw').
    pose proof (deleteMany_marked_lookup
                  (ineligible (getRefundImpl (tenantID u)) (getBillingImpl (tenantID u))
                     (transactions w)) [id] (transactions w) id) as Hstore.
    rewrite <- Hw' in Hstore.
    rewrite Hrun. eexists _, w'. split; [reflexivity|].
    rewrite bool_decide_eq_true_2 in Hstore by (by left). simpl in *.
    destruct (ineligible _ _ (transactions w) id) eqn:Hin; simpl in *.
    + split; [done|]. rewrite Hstore, Ht. split; discriminate.
    + rewrite Ht. simpl. by rewrite Hstore.
Qed.

(** X7: the only error the batch delete raises is the refusal of an
    unauthorized caller, before anything is deleted or logged; for an
    authorized caller it always answers an accounting, within the size of
    the batch. *)
Theorem handleDeleteTransactions_only_fails_preflight act u ids w :
  (canDeleteTransaction u = false
   ∧ ∃ value,
       handleDeleteTransactions act u ids w
         = (Thrown (AppAuthError DELETE TRANSACTION "handleDeleteTransactions" value), w))
  ∨ (canDeleteTransaction u = true
     ∧ ∃ res w',
         handleDeleteTransactions act u ids w = (Returned res, w')
         ∧ 0 ≤ inSuccess res ∧ 0 ≤ inError res
         ∧ inSuccess res + inError res ≤ Z.of_nat (length ids)).
Proof.
  unfold handleDeleteTransactions. destruct (canDeleteTransaction u); simpl.
  - right. split; [done|].
    destruct (deleteTransactions_spec act u ids w) as (w' & Hrun & _).
    eexists _, w'. split; [exact Hrun|]. simpl.
    set (rc := getRefundImpl (tenantID u)). set (bi := getBillingImpl (tenantID u)).
    destruct (deleteMany_size (List.filter (λ i, negb (ineligible rc bi (transactions w) i)) ids)
                (transactions w)) as [_ Hle].
    pose proof (filter_split_length (ineligible rc bi (transactions w)) ids).
    repeat split; lia.
  - left. split; [done|]. by eexists.
Qed.
End DeletionProperties.

Section RefundProperties.
Context {Auth : Authorizations} {Integ : Integrations}.

(** One step of the refund loop on an id it gets past. *)
Lemma refundTransaction_passes act u acc id w :
  passesRefundLoop u (transactions w) id = true →
  ∃ w',
    refundTransaction act u acc id w
      = (Returned (acc ++ survivors (transactions w) [id]), w')
    ∧ transactions w' = transactions w ∧ users w' = users w
    ∧ refundSubmissions w' = refundSubmissions w.
Proof.
  unfold passesRefundLoop, survivors, refundTransaction, TransactionStorage.getTransaction.
  run. destruct (transactions w !! id) as [t|]; [|discriminate]. simpl.
  destruct (refundedAndNotCancelled t); simpl.
  - intros _. run. eexists. by rewrite app_nil_r.
  - intros ->. simpl. by eexists.
Qed.

(** One step on an id it does not get past: it throws, and for a stored
    transaction what it throws is the authorization error. *)
Lemma refundTransaction_stops act u acc id w :
  passesRefundLoop u (transactions w) id = false →
  ∃ e,
    refundTransaction act u acc id w = (Thrown e, w)
    ∧ ∀ t, transactions w !! id = Some t →
           e = AppAuthError REFUND_TRANSACTION TRANSACTION "handleRefundTransactions"
                 (Some (pretty (tx_id t))).
Proof.
  unfold passesRefundLoop, refundTransaction, TransactionStorage.getTransaction.
  run. destruct (transactions w !! id) as [t|]; simpl.
  - intros Hp. apply orb_false_iff in Hp as [-> ->]. simpl.
    eexists. split; [reflexivity|]. by intros ? [= <-].
  - intros _. eexists. split; [reflexivity|]. intros t [=].
Qed.

Lemma survivors_app (m : gmap Z Transaction) l1 l2 :
  survivors m (l1 ++ l2) = survivors m l1 ++ survivors m l2.
Proof. unfold survivors. apply omap_app. Qed.

Lemma refundLoop_passes act u ids : ∀ acc w,
  (∀ id, id ∈ ids → passesRefundLoop u (transactions w) id = true) →
  ∃ w',
    forOf ids (refundTransaction act u) acc w
      = (Returned (acc ++ survivors (transactions w) ids), w')
    ∧ transactions w' = transactions w ∧ users w' = users w
    ∧ refundSubmissions w' = refundSubmissions w.
Proof.
  induction ids as [|id ids IH]; intros acc w Hall.
  - exists w. simpl. unfold mret, Async_ret. by rewrite app_nil_r.
  - rewrite forOf_cons.
    destruct (refundTransaction_passes act u acc id w) as (w1 & -> & Ht & Hu & Hs).
    { apply Hall. by left. }
    destruct (IH (acc ++ survivors (transactions w) [id]) w1) as (w' & -> & Ht' & Hu' & Hs').
    { intros j Hj. rewrite Ht. apply Hall. by right. }
    exists w'. rewrite Ht', Hu', Hs', Ht. repeat split; try done.
    change (id :: ids) with ([id] ++ ids). by rewrite survivors_app, app_assoc.
Qed.

Lemma refundLoop_returned act u ids : ∀ acc w l w',
  forOf ids (refundTransaction act u) acc w = (Returned l, w') →
  (∀ id, id ∈ ids → passesRefundLoop u (transactions w) id = true)
  ∧ l = acc ++ survivors (transactions w) ids.
Proof.
  induction ids as [|id ids IH]; intros acc w l w'.
  - simpl. intros [= <- <-]. split; [by intros id Hid; apply elem_of_nil in Hid|].
    by rewrite app_nil_r.
  - rewrite forOf_cons.
    destruct (passesRefundLoop u (transactions w) id) eqn:Hp.
    + destruct (refundTransaction_passes act u acc id w Hp) as (w1 & -> & Ht & _).
      intros Hrun. apply IH in Hrun as [Hall ->]. rewrite Ht in *. split.
      * intros j Hj. apply elem_of_cons in Hj as [->|Hj]; [done|by apply Hall].
      * change (id :: ids) with ([id] ++ ids). by rewrite survivors_app, app_assoc.
    + destruct (refundTransaction_stops act u acc id w Hp) as (e & -> & _). intros [=].
Qed.

(** X8: a transaction of the batch that the caller may not refund aborts the
    whole request: when the ids before it are got past, the handler throws
    the authorization error that names it, and nothing is handed to the
    refund integration, whatever follows in the batch. *)
Theorem handleRefundTransactions_authorization_is_fatal act u pre id post w t :
  (∀ j, j ∈ pre → passesRefundLoop u (transactions w) j = true) →
  transactions w !! id = Some t →
  refundedAndNotCancelled t = false →
  canRefundTransaction u t = false →
  ∃ w',
    handleRefundTransactions act u {| transactionIds := Some (pre ++ id :: post) |} w
      = (Thrown (AppAuthError REFUND_TRANSACTION TRANSACTION "handleRefundTransactions"
                   (Some (pretty (tx_id t)))), w')
    ∧ refundSubmissions w' = refundSubmissions w
    ∧ transactions w' = transactions w.
Proof.
  intros Hpre Ht Hr Hc. unfold handleRefundTransactions. simpl.
  rewrite bind_run, forOf_app.
  destruct (refundLoop_passes act u pre [] w Hpre) as (w1 & -> & Ht1 & Hu1 & Hs1).
  rewrite forOf_cons.
  destruct (refundTransaction_stops act u ([] ++ survivors (transactions w) pre) id w1)
    as (e & -> & He).
  { unfold passesRefundLoop. by rewrite Ht1, Ht, Hr, Hc. }
  rewrite (He t) by (by rewrite Ht1). by exists w1.
Qed.

(** X9: when refund submission answers, every requested id was stored, the
    transactions handed to the integration, once, are those of the batch
    that were not already refunded, in the order of the batch, [inSuccess]
    counts what the integration accepted and [inError] is set exactly when
    some submitted transaction was not accepted, to their number. *)
Theorem handleRefundTransactions_returned act u ids w resp w' :
  handleRefundTransactions act u {| transactionIds := Some ids |} w = (Returned resp, w') →
  ∃ usr rc,
    users w !! token_id u = Some usr
    ∧ getRefundImpl (tenantID u) = Some rc
    ∧ (∀ id, id ∈ ids → is_Some (transactions w !! id))
    ∧ refundSubmissions w'
        = refundSubmissions w ++ [(user_id usr, survivors (transactions w) ids)]
    ∧ refund_inSuccess resp
        = Z.of_nat (length (refund rc (tenantID u) (user_id usr)
                              (survivors (transactions w) ids)))
    ∧ ∀ k, refund_inError resp = Some k ↔
           0 < k ∧ k = Z.of_nat (length (survivors (transactions w) ids))
                       - refund_inSuccess resp.
Proof.
  unfold handleRefundTransactions. simpl. rewrite bind_run.
  destruct (forOf ids (refundTransaction act u) [] w) as [[l|e] w1] eqn:E; [|intros [=]].
  pose proof E as Hloop. apply refundLoop_returned in Hloop as [Hall ->].
  apply refundLoop_spec in E as (Ht & Hu & Hs & _).
  rewrite bind_run. unfold UserStorage.getUser. run. rewrite Hu.
  destruct (users w !! token_id u) as [usr|]; simpl; [|intros [=]].
  destruct (getRefundImpl (tenantID u)) as [rc|]; run; [|intros [=]].
  intros [= <- <-]. exists usr, rc. simpl. rewrite Hs.
  split; [done|]. split; [done|]. split; [|split; [done|split; [done|]]].
  - intros id Hid. specialize (Hall id Hid). unfold passesRefundLoop in Hall.
    destruct (transactions w !! id); [by eexists|discriminate].
  - intros k. destruct (0 <? _) eqn:Hpos.
    + apply Z.ltb_lt in Hpos. split; [by intros [= <-]|]. by intros [_ ->].
    + apply Z.ltb_ge in Hpos. split; [discriminate|]. intros [Hk ->]. lia.
Qed.
End RefundProperties.

Section PushProperties.
Context {Auth : Authorizations} {Integ : Integrations}.

Ltac push_unfold :=
  unfold handlePushTransactionCdr, UtilsService.assertIdIsProvided,
    UtilsService.assertObjectExists, TransactionStorage.getTransaction,
    ChargingStationStorage.getChargingStation, TransactionStorage.saveTransaction,
    processOCPITransaction.

(** X10: a push that fails saves and logs nothing: the stored transactions,
    the stations and the log are as before, and the transaction was handed
    to the roaming collaborator only when the failure is the collaborator's
    own. *)
Theorem handlePushTransactionCdr_failure_writes_nothing act u req w e w' :
  handlePushTransactionCdr act u req w = (Thrown e, w') →
  transactions w' = transactions w
  ∧ chargingStations w' = chargingStations w
  ∧ logs w' = logs w
  ∧ (cdrPushes w' = cdrPushes w
     ∨ ∃ t cs, roamingPush (tenantID u) t cs END = inl e
               ∧ cdrPushes w' = cdrPushes w ++ [tx_id t]).
Proof.
  push_unfold. destruct (transactionId req) as [id|]; run; [|intros [= <- <-]; auto].
  destruct (canUpdateTransaction u); simpl; [|intros [= <- <-]; auto].
  run. destruct (transactions w !! id) as [t|]; run; [|intros [= <- <-]; auto].
  destruct (ChargingStationStorage.stored (chargingStations w) (chargeBoxID t)) as [cs|];
    run; [|intros [= <- <-]; auto].
  destruct (issuer t); simpl; [|intros [= <- <-]; auto].
  destruct (ocpiData t) as [o|]; simpl; [|intros [= <- <-]; auto].
  destruct (truthy (cdr o ≫= cdr_id)); simpl; [intros [= <- <-]; auto|].
  run. destruct (roamingPush (tenantID u) t cs END) as [e'|o'] eqn:Hpush; run;
    intros [= <- <-]. simpl. repeat split; try done. right. by exists t, cs.
Qed.

(** X11: a transaction of another organization is never pushed: whoever
    asks, the request fails with nothing written and nothing handed to the
    roaming collaborator. *)
Theorem handlePushTransactionCdr_refuses_external act u req w id t :
  transactionId req = Some id →
  transactions w !! id = Some t →
  issuer t = false →
  ∃ e, handlePushTransactionCdr act u req w = (Thrown e, w).
Proof.
  intros Hid Ht Hi. push_unfold. rewrite Hid. run.
  destruct (canUpdateTransaction u); simpl; [|by eexists].
  run. rewrite Ht. run.
  destruct (ChargingStationStorage.stored (chargingStations w) (chargeBoxID t)); run; [|by eexists].
  rewrite Hi. simpl. by eexists.
Qed.
End PushProperties.

Section StringLemmas.

Lemma string_app_cons (c : ascii) (s t : string) :
  String c s +:+ t = String c (s +:+ t).
Proof. reflexivity. Qed.

Lemma string_app_nil_l (t : string) : "" +:+ t = t.
Proof. reflexivity. Qed.

Lemma string_app_nil_r (s : string) : s +:+ "" = s.
Proof.
  induction s as [|c s IH]; [done|]. by rewrite string_app_cons, IH.
Qed.

Lemma string_app_assoc (a b c : string) : (a +:+ b) +:+ c = a +:+ (b +:+ c).
Proof.
  induction a as [|x a IH]; [done|]. by rewrite !string_app_cons, IH.
Qed.

Lemma rev_app_append (a b c : string) :
  String.rev_app a b +:+ c = String.rev_app a (b +:+ c).
Proof. revert b. induction a as [|x a IH]; intros b; simpl; [done|apply IH]. Qed.

Lemma concat_cons_cons (sep a b : string) (l : list string) :
  String.concat sep (a :: b :: l) = a +:+ sep +:+ String.concat sep (b :: l).
Proof. reflexivity. Qed.

Lemma split_go_cons sep cur s : ∃ x xs, split_go sep cur s = x :: xs.
Proof.
  revert cur. induction s as [|c s IH]; intros cur; simpl; [by eexists _, _|].
  destruct (Ascii.eqb c sep); [by eexists _, _|apply IH].
Qed.

Lemma concat_split_go sep cur s :
  String.concat (String sep "") (split_go sep cur s) = String.rev cur +:+ s.
Proof.
  revert cur. induction s as [|c s IH]; intros cur; simpl.
  - by rewrite string_app_nil_r.
  - destruct (Ascii.eqb_spec c sep) as [->|Hne].
    + destruct (split_go_cons sep "" s) as (x & xs & Hsplit).
      specialize (IH ""). rewrite Hsplit in *. rewrite concat_cons_cons, IH. reflexivity.
    + rewrite IH. unfold String.rev. simpl. by rewrite !rev_app_append.
Qed.

(** Joining what [split] answers with the separator gives the string back. *)
Lemma concat_split sep s : String.concat (String sep "") (split sep s) = s.
Proof. unfold split. by rewrite concat_split_go. Qed.
End StringLemmas.

Section QueryProperties.
Context {Auth : Authorizations} {Queries : TransactionQueries}.

(** X12: the cap of the in-error query cuts the result only: the [count]
    of the store answer is passed on as it is, also when it exceeds the
    hundred entries returned, and an answer of a hundred entries or less is
    returned whole. *)
Theorem handleGetTransactionsInError_keeps_count u req w :
  canListTransactionsInError u = true →
  ∃ d,
    handleGetTransactionsInError u req w = (Returned d, w)
    ∧ count d = count (filterTransactionsResponse
        (getTransactionsInError (transactions w) (inErrorFilter u req)
           {| limit := Limit req; skip := Skip req; sort := Sort req;
              onlyRecordCount := OnlyRecordCount req |}) u)
    ∧ ((length (result (filterTransactionsResponse
          (getTransactionsInError (transactions w) (inErrorFilter u req)
             {| limit := Limit req; skip := Skip req; sort := Sort req;
                onlyRecordCount := OnlyRecordCount req |}) u)) ≤ 100)%nat →
       d = filterTransactionsResponse
             (getTransactionsInError (transactions w) (inErrorFilter u req)
                {| limit := Limit req; skip := Skip req; sort := Sort req;
                   onlyRecordCount := OnlyRecordCount req |}) u).
Proof.
  intros Hauth. unfold handleGetTransactionsInError. rewrite Hauth. simpl. run.
  set (d := filterTransactionsResponse _ u).
  destruct (100 <? length (result d))%nat eqn:Hlen.
  - eexists. split; [reflexivity|]. simpl. split; [done|].
    apply Nat.ltb_lt in Hlen. lia.
  - by exists d.
Qed.

Lemma defaultErrorTypes_spec u ty :
  ty ∈ defaultErrorTypes u ↔
    ty ∈ baseErrorTypes
    ∨ (ty = MISSING_PRICE ∧ isComponentActiveFromToken u PRICING = true)
    ∨ (ty = NO_BILLING_DATA ∧ isComponentActiveFromToken u BILLING = true).
Proof.
  unfold defaultErrorTypes, baseErrorTypes.
  destruct (isComponentActiveFromToken u PRICING),
           (isComponentActiveFromToken u BILLING);
    rewrite ?elem_of_app, ?list_elem_of_singleton; intuition congruence.
Qed.

(** X13: the error types asked of the store: the ones of the request, split
    at the pipes, when it names some; otherwise the seven standing types,
    with the missing price when the pricing component is active and the
    missing billing data when the billing component is. *)
Theorem inErrorFilter_error_types u req :
  inErrorFilter u req !! "errorType"
    = Some (if truthy (ErrorType req)
            then VStrings (split "|" (default "" (ErrorType req)))
            else VErrorTypes (defaultErrorTypes u))
  ∧ ∀ ty, ty ∈ defaultErrorTypes u ↔
      ty ∈ baseErrorTypes
      ∨ (ty = MISSING_PRICE ∧ isComponentActiveFromToken u PRICING = true)
      ∨ (ty = NO_BILLING_DATA ∧ isComponentActiveFromToken u BILLING = true).
Proof.
  split; [|apply defaultErrorTypes_spec].
  unfold inErrorFilter. cbv zeta. rewrite lookup_insert_ne by done.
  destruct (truthy (ErrorType req)); apply lookup_insert_eq.
Qed.

(** X14: the site filters follow the organization component: when it is
    not active for the caller the filter names no site and no site area,
    whatever the request asks; when it is, the sites are always set, to the
    sites the caller administers among the requested ones. *)
Theorem inErrorFilter_site_scope u req :
  (isComponentActiveFromToken u ORGANIZATION = false →
     inErrorFilter u req !! "siteIDs" = None
     ∧ inErrorFilter u req !! "siteAreaIDs" = None)
  ∧ (isComponentActiveFromToken u ORGANIZATION = true →
       inErrorFilter u req !! "siteIDs"
         = Some (VStrings (getAuthorizedSiteAdminIDs u
                   (if truthy (SiteID req) then split "|" <$> SiteID req else None)))).
Proof.
  unfold inErrorFilter. cbv zeta. split; intros ->.
  - split; repeat case_match; by simplify_map_eq.
  - repeat case_match; by simplify_map_eq.
Qed.

(** X15: the charging stations of the request reach the store whole: for a
    non-empty [ChargeBoxID] the filter holds a list of ids that, joined by
    pipes, is the requested string; without one the filter does not
    restrict the stations. *)
Theorem inErrorFilter_charge_boxes u req :
  match ChargeBoxID req with
  | Some (String c s) =>
      ∃ ids, inErrorFilter u req !! "chargeBoxIDs" = Some (VStrings ids)
             ∧ String.concat "|" ids = String c s
  | _ => inErrorFilter u req !! "chargeBoxIDs" = None
  end.
Proof.
  unfold inErrorFilter. cbv zeta.
  destruct (ChargeBoxID req) as [[|c s]|]; simpl.
  - repeat case_match; by simplify_map_eq.
  - exists (split "|" (String c s)). split; [|apply concat_split].
    repeat case_match; by simplify_map_eq.
  - repeat case_match; by simplify_map_eq.
Qed.
End QueryProperties.

Section ExportProperties.
Context {Fmt : Formatting}.

Lemma csv_rows_from (l : list Transaction) : ∀ csv,
  fold_left (λ csv t, csv +:+ csvRow t) l csv
    = csv +:+ fold_left (λ csv t, csv +:+ csvRow t) l "".
Proof.
  induction l as [|t l IH]; intros csv; simpl.
  - by rewrite string_app_nil_r.
  - rewrite IH, (IH ("" +:+ csvRow t)), string_app_nil_l. by rewrite string_app_assoc.
Qed.

(** X16: an export can be written in chunks: the CSV of a list is the CSV
    of its first part followed by the CSV of the rest written without
    header, and the header, when asked for, only comes in front of the
    rows. *)
Theorem convertToCSV_in_chunks u l1 l2 writeHeader :
  convertToCSV u (l1 ++ l2) writeHeader
    = convertToCSV u l1 writeHeader +:+ convertToCSV u l2 false
  ∧ convertToCSV u l1 true = CSV_HEADER +:+ convertToCSV u l1 false.
Proof.
  unfold convertToCSV. split.
  - rewrite fold_left_app. apply csv_rows_from.
  - apply csv_rows_from.
Qed.

Lemma Math_round_ratio (z : Z) (p : positive) :
  Math_round (inject_Z z / inject_Z (Zpos (2 * p))) = (z + Zpos p) / Zpos (2 * p).
Proof.
  unfold Math_round, Qfloor, Qdiv, Qinv, Qmult, Qplus, inject_Z. simpl.
  rewrite !Pos2Z.inj_mul.
  replace (z * 1 * 2 + 1 * (1 * (2 * Z.pos p))) with ((z + Z.pos p) * 2) by lia.
  replace (1 * (2 * Z.pos p) * 2) with (2 * Z.pos p * 2) by lia.
  by rewrite Z.div_mul_cancel_r.
Qed.

Lemma Math_round_scaled (z : Z) (p : positive) :
  Math_round (if Qeq_bool (inject_Z z) 0 then 0%Q
              else (inject_Z z / inject_Z (Zpos (2 * p)))%Q)
    = (z + Zpos p) / Zpos (2 * p).
Proof.
  destruct (Qeq_bool (inject_Z z) 0) eqn:E; [|apply Math_round_ratio].
  apply Qeq_bool_eq in E. unfold Qeq, inject_Z in E. simpl in E.
  assert (z = 0) as -> by lia.
  unfold Math_round, Qfloor, Qplus. simpl.
  symmetry. apply Z.div_small. lia.
Qed.

End ExportProperties.

Section ListingProperties.
Context {Auth : Authorizations} {Reads : ReadAuthorizations}.


End ListingProperties.

Section SingleItemProperties.
Context {Auth : Authorizations} {Integ : Integrations} {Reads : ReadAuthorizations}
        {Assign : TransactionAssignment} {Cons : Consumptions}
        {Sync : RefundSynchronization} {Errors : ErrorReporting}.

(** X20: transactions are assigned to a user only on the request of a
    caller who may update transactions, for a stored user issued by the
    organization: then the store is what the assignment makes of it and
    nothing else changes; in every other case the handler throws and
    nothing is written. *)
Theorem handleAssignTransactionsToUser_outcomes act u req w :
  match handleAssignTransactionsToUser act u req w with
  | (Returned r, w') =>
      ∃ userID usr,
        canUpdateTransaction u = true
        ∧ byUser_UserID req = Some userID
        ∧ users w !! userID = Some usr
        ∧ user_issuer usr = true
        ∧ w' = set_transactions (λ m, assignTransactionsToUser m usr) w
  | (Thrown e, w') => w' = w
  end
  ∧ ∀ userID usr,
      canUpdateTransaction u = true →
      byUser_UserID req = Some userID →
      truthy userID = true →
      users w !! userID = Some usr →
      (user_issuer usr = false →
         handleAssignTransactionsToUser act u req w
           = (Thrown (AppError GENERAL_ERROR "User not issued by the organization"
                        "handleAssignTransactionsToUser"), w))
      ∧ (user_issuer usr = true →
           handleAssignTransactionsToUser act u req w
             = (Returned REST_RESPONSE_SUCCESS,
                set_transactions (λ m, assignTransactionsToUser m usr) w)).
Proof.
  unfold handleAssignTransactionsToUser, UserStorage.getUser,
    UtilsService.assertObjectExists.
  split.
  - destruct (canUpdateTransaction u); simpl; [|done].
    destruct (byUser_UserID req) as [userID|]; [|done].
    destruct (truthy userID); simpl; [|done]. run.
    destruct (users w !! userID) as [usr|] eqn:Husr; run; [|done].
    destruct (user_issuer usr) eqn:Hissuer; run; [|done].
    by exists userID, usr.
  - intros userID usr -> -> Htruthy Husr. rewrite Htruthy. simpl. run. rewrite Husr. run.
    split; intros ->; by run.
Qed.

(** X21: the count of unassigned transactions against their assignment, on
    the same request: the count never writes; where it answers, assignment
    succeeds exactly when the user is issued by the organization; where it
    throws, assignment throws too, and once the caller is allowed and names
    a user the two handlers throw the same error, the missing user being
    reported by the count under the name of the assignment handler. *)
Theorem handleGetUnassignedTransactionsCount_against_assignment act u req w :
  match handleGetUnassignedTransactionsCount act u req w with
  | (Returned n, w') =>
      w' = w
      ∧ ∃ userID usr,
          byUser_UserID req = Some userID
          ∧ users w !! userID = Some usr
          ∧ n = getUnassignedTransactionsCount (transactions w) usr
          ∧ handleAssignTransactionsToUser act u req w
              = if user_issuer usr
                then (Returned REST_RESPONSE_SUCCESS,
                      set_transactions (λ m, assignTransactionsToUser m usr) w)
                else (Thrown (AppError GENERAL_ERROR "User not issued by the organization"
                                "handleAssignTransactionsToUser"), w)
  | (Thrown e, w') =>
      w' = w
      ∧ ∃ e',
          handleAssignTransactionsToUser act u req w = (Thrown e', w)
          ∧ (canUpdateTransaction u = true →
             (∃ userID, byUser_UserID req = Some userID ∧ truthy userID = true) →
             e' = e
             ∧ ∃ msg, e = AppError OBJECT_DOES_NOT_EXIST_ERROR msg
                            "handleAssignTransactionsToUser")
  end.
Proof.
  unfold handleGetUnassignedTransactionsCount, handleAssignTransactionsToUser,
    UserStorage.getUser, UtilsService.assertObjectExists.
  destruct (canUpdateTransaction u); simpl.
  - destruct (byUser_UserID req) as [userID|].
    + destruct (truthy userID) eqn:Htruthy; simpl.
      * run. destruct (users w !! userID) as [usr|] eqn:Husr; run.
        -- split; [done|]. exists userID, usr. repeat split; try done.
           by destruct (user_issuer usr).
        -- split; [done|]. eexists. split; [reflexivity|]. intros _ _.
           split; [done|]. by eexists.
      * split; [done|]. eexists. split; [reflexivity|].
        intros _ (userID' & [= <-] & Ht). congruence.
    + split; [done|]. eexists. split; [reflexivity|]. by intros _ (userID' & [=] & _).
  - split; [done|]. eexists. split; [reflexivity|]. discriminate.
Qed.

(** X22: reading one transaction: a missing transaction is reported as not
    found before the capability of the caller is looked at, a stored one is
    answered, shaped for the caller, exactly when the caller may read it,
    and nothing is ever written. *)
Theorem handleGetTransaction_outcomes act u id w :
  (transactions w !! id = None →
     handleGetTransaction act u {| byID_ID := Some id |} w
       = (Thrown (AppError OBJECT_DOES_NOT_EXIST_ERROR
                    ("Transaction with ID '" +:+ pretty id +:+ "' does not exist")
                    "handleGetTransaction"), w))
  ∧ (∀ t, transactions w !! id = Some t →
       handleGetTransaction act u {| byID_ID := Some id |} w
         = if canReadTransaction u t
           then (Returned (filterTransactionResponse t u), w)
           else (Thrown (AppAuthError READ TRANSACTION "handleGetTransaction"
                           (Some (pretty id))), w))
  ∧ (∀ req, (handleGetTransaction act u req w).2 = w).
Proof.
  unfold handleGetTransaction, UtilsService.assertIdIsProvided,
    UtilsService.assertObjectExists, TransactionStorage.getTransaction.
  split; [|split].
  - intros Hnone. run. by rewrite Hnone.
  - intros t Ht. run. rewrite Ht. run. by destruct (canReadTransaction u t).
  - intros req. destruct (byID_ID req) as [i|]; run; [|done].
    destruct (transactions w !! i) as [t|]; run; [|done].
    by destruct (canReadTransaction u t).
Qed.

(** X23: the consumptions of a readable transaction: a start date after the
    end date is refused with an error that quotes the start date twice and
    the end date nowhere (equal dates are accepted); otherwise the answer is
    built from all the consumptions when they are asked for and from the
    optimized ones when not. *)
Theorem handleGetTransactionConsumption_dates act u req w id t :
  TransactionId req = Some id →
  transactions w !! id = Some t →
  canReadTransaction u t = true →
  handleGetTransactionConsumption act u req w =
    match consumption_StartDateTime req, consumption_EndDateTime req with
    | Some startDateTime, Some endDateTime =>
        if endDateTime <? startDateTime
        then (Thrown (AppError GENERAL_ERROR
                        ("The requested start date '" +:+ toISOString startDateTime
                           +:+ "' is after the requested end date '"
                           +:+ toISOString startDateTime +:+ "' ")
                        "handleGetConsumptionFromTransaction"), w)
        else (Returned (filterTransactionConsumptionsResponse t
                (if LoadAllConsumptions req
                 then getTransactionConsumptions (tx_id t)
                 else getOptimizedTransactionConsumptions (tx_id t)) u), w)
    | _, _ =>
        (Returned (filterTransactionConsumptionsResponse t
           (if LoadAllConsumptions req
            then getTransactionConsumptions (tx_id t)
            else getOptimizedTransactionConsumptions (tx_id t)) u), w)
    end.
Proof.
  intros Hid Ht Hread.
  unfold handleGetTransactionConsumption, UtilsService.assertIdIsProvided,
    UtilsService.assertObjectExists, TransactionStorage.getTransaction.
  rewrite Hid. run. rewrite Ht. run. rewrite Hread. simpl. run.
  destruct (consumption_StartDateTime req) as [a|],
           (consumption_EndDateTime req) as [b|]; try done.
  by destruct (b <? a).
Qed.

(** X24: the synchronization handler answers by itself and never throws: a
    caller who is not an administrator gets the authorization error as the
    response, logged, without the task being run; for an administrator the
    task runs on the tenant and its failure, if any, is what is logged and
    answered. *)
Theorem handleSynchronizeRefundedTransactions_never_throws act u w :
  ∃ r w',
    handleSynchronizeRefundedTransactions act u w = (Returned r, w')
    ∧ (isAdmin u = false →
         r = ErrorResponse
               (AppAuthError UPDATE TRANSACTION "handleSynchronizeRefundedTransactions" None)
         ∧ ∃ entry, w' = set_logs (λ l, l ++ [entry]) w ∧ isErrorLog entry)
    ∧ (isAdmin u = true →
         match processTenant (tenantID u) w with
         | (Returned _, w1) => r = SuccessResponse ∧ w' = w1
         | (Thrown e, w1) =>
             r = ErrorResponse e
             ∧ ∃ entry, w' = set_logs (λ l, l ++ [entry]) w1 ∧ isErrorLog entry
         end).
Proof.
  unfold handleSynchronizeRefundedTransactions, tryCatch,
    logActionExceptionMessageAndSendResponse.
  destruct (isAdmin u); simpl.
  - rewrite bind_run. destruct (processTenant (tenantID u) w) as [[[]|e] w1]; run.
    + eexists _, _. split; [reflexivity|]. split; [discriminate|]. by intros _.
    + eexists _, _. split; [reflexivity|]. split; [discriminate|]. intros _.
      split; [done|]. by eexists.
  - run. eexists _, _. split; [reflexivity|]. split; [|discriminate]. intros _.
    split; [done|]. by eexists.
Qed.
End SingleItemProperties.

(** X25: the codes of the log levels and of the log types tell them apart:
    two levels, or two types, with the same code are the same. *)
Theorem Log_codes_are_distinct :
  (∀ a b, LogLevel_value a = LogLevel_value b → a = b)
  ∧ (∀ a b, LogType_value a = LogType_value b → a = b).
Proof. split; intros [] []; simpl; intros [=]; reflexivity. Qed.

(** * The further properties on the sample data *)

Section FurtherSamples.
Import Samples MoreSamples.

(** X5: 501 and 503 are completed and 502 comes without its station: no
    station is written. *)
Lemma deleteTransactions_writes_stations_for_occupants_only_witness :
  ∃ res w',
    @deleteTransactions allIntegrations "delete" admin [501; 502; 503]
      (world [tx501; tx502_bare; tx503]) = (Returned res, w')
    ∧ chargingStations w' = {[ "S1" := connectors S1 ]}.
Proof.
  apply (@deleteTransactions_writes_stations_for_occupants_only allIntegrations
           "delete" admin [501; 502; 503] (world [tx501; tx502_bare; tx503])).
  intros id t Hid Ht.
  assert (Hall : Forall (λ i, ∀ t, transactions (world [tx501; tx502_bare; tx503]) !! i
                                     = Some t →
                                   occupant {[ "S1" := connectors S1 ]} t = false)
                   [501; 502; 503]).
  { repeat constructor; intros t' [= <-]; reflexivity. }
  rewrite Forall_forall in Hall. exact (Hall id Hid t Ht).
Defined.

(** X6: the single delete of the refunded 501 answers one error and keeps
    the transaction. *)
Lemma handleDeleteTransaction_outcomes_witness :
  ∃ res w',
    @handleDeleteTransaction allowAll allIntegrations "delete" admin 501 (world [tx501])
      = (Returned res, w')
    ∧ inSuccess res + inError res = 1
    ∧ (inSuccess res = 1 ↔ transactions w' !! 501 = None).
Proof.
  exact (proj2 (proj2 (@handleDeleteTransaction_outcomes allowAll allIntegrations
                         "delete" admin 501 (world [tx501])))
           eq_refl (ex_intro _ tx501 eq_refl)).
Defined.

(** X8: 501 is already refunded and got past, 504 may not be refunded by
    the caller: the request fails on 504 and 503 is never looked at. *)
Lemma handleRefundTransactions_authorization_is_fatal_witness :
  ∃ w',
    @handleRefundTransactions denyRefund allIntegrations "refund" admin
      {| transactionIds := Some [501; 504; 503] |} (world [tx501; tx504; tx503])
      = (Thrown (AppAuthError REFUND_TRANSACTION TRANSACTION "handleRefundTransactions"
                   (Some "504")), w')
    ∧ refundSubmissions w' = []
    ∧ transactions w' = transactions (world [tx501; tx504; tx503]).
Proof.
  apply (@handleRefundTransactions_authorization_is_fatal denyRefund allIntegrations
           "refund" admin [501] 504 [503] (world [tx501; tx504; tx503]) tx504);
    try reflexivity.
  intros j Hj. apply list_elem_of_singleton in Hj as ->. reflexivity.
Defined.

(** X9: of the batch 501, 504 the refunded 501 is left out and 504 is
    handed to the integration, for the caller. *)
Lemma handleRefundTransactions_returned_witness :
  refundSubmissions
    (@handleRefundTransactions allowAll allIntegrations "refund" admin
       {| transactionIds := Some [501; 504] |} (world [tx501; tx504])).2
    = [("U1", [tx504])]
  ∧ ∀ id, id ∈ [501; 504] → is_Some (transactions (world [tx501; tx504]) !! id).
Proof.
  destruct (@handleRefundTransactions_returned allowAll allIntegrations "refund" admin
              [501; 504] (world [tx501; tx504])
              {| refund_status := REST_RESPONSE_SUCCESS; refund_inSuccess := 1;
                 refund_inError := None |}
              (@handleRefundTransactions allowAll allIntegrations "refund" admin
                 {| transactionIds := Some [501; 504] |} (world [tx501; tx504])).2
              eq_refl) as (usr & rc & Hu & _ & Hall & Hsub & _).
  injection Hu as <-. split; [exact Hsub|exact Hall].
Defined.

(** X10: the roaming partner refuses the push of 504: nothing is saved or
    logged, and the failure is the partner's. *)
Lemma handlePushTransactionCdr_failure_writes_nothing_witness :
  transactions
    (@handlePushTransactionCdr allowAll roamingDown "push" admin push504 (world [tx504])).2
    = transactions (world [tx504])
  ∧ chargingStations
      (@handlePushTransactionCdr allowAll roamingDown "push" admin push504 (world [tx504])).2
      = chargingStations (world [tx504])
  ∧ logs
      (@handlePushTransactionCdr allowAll roamingDown "push" admin push504 (world [tx504])).2
      = []
  ∧ (cdrPushes
       (@handlePushTransactionCdr allowAll roamingDown "push" admin push504
          (world [tx504])).2 = []
     ∨ ∃ t cs,
         @roamingPush roamingDown "T1" t cs END
           = inl (AppError GENERAL_ERROR "OCPI endpoint unreachable"
                    "processOCPITransaction")
         ∧ cdrPushes
             (@handlePushTransactionCdr allowAll roamingDown "push" admin push504
                (world [tx504])).2 = [] ++ [tx_id t]).
Proof.
  exact (@handlePushTransactionCdr_failure_writes_nothing allowAll roamingDown "push"
           admin push504 (world [tx504])
           (AppError GENERAL_ERROR "OCPI endpoint unreachable" "processOCPITransaction")
           (@handlePushTransactionCdr allowAll roamingDown "push" admin push504
              (world [tx504])).2
           eq_refl).
Defined.

(** X11: 505 was roamed in from another organization: its push is refused. *)
Lemma handlePushTransactionCdr_refuses_external_witness :
  ∃ e,
    @handlePushTransactionCdr allowAll allIntegrations "push" admin
      {| transactionId := Some 505 |} (world [tx505]) = (Thrown e, world [tx505]).
Proof.
  exact (@handlePushTransactionCdr_refuses_external allowAll allIntegrations "push" admin
           {| transactionId := Some 505 |} (world [tx505]) 505 tx505
           eq_refl eq_refl eq_refl).
Defined.

(** X12: the store counts 150 matches: the answer is cut to a hundred and
    still counts 150. *)
Lemma handleGetTransactionsInError_keeps_count_witness :
  ∃ d,
    @handleGetTransactionsInError allowAll floodStore admin inErrorRequest (world [tx501])
      = (Returned d, world [tx501])
    ∧ count d = 150.
Proof.
  destruct (@handleGetTransactionsInError_keeps_count allowAll floodStore admin
              inErrorRequest (world [tx501]) eq_refl) as (d & Hrun & Hcount & _).
  exists d. split; [exact Hrun|exact Hcount].
Defined.

(** X14: without the organization component the sites asked for are
    dropped; with it they are kept. *)
Lemma inErrorFilter_site_scope_witness :
  (@inErrorFilter denyRefund admin inErrorRequest !! "siteIDs" = None
   ∧ @inErrorFilter denyRefund admin inErrorRequest !! "siteAreaIDs" = None)
  ∧ @inErrorFilter allowAll admin inErrorRequest !! "siteIDs" = Some (VStrings ["A"; "B"]).
Proof.
  split.
  - exact (proj1 (@inErrorFilter_site_scope denyRefund admin inErrorRequest) eq_refl).
  - exact (proj2 (@inErrorFilter_site_scope allowAll admin inErrorRequest) eq_refl).
Defined.



(** X20: Bob was not issued by the organization: nothing is assigned to
    him. *)
Lemma handleAssignTransactionsToUser_outcomes_witness :
  @handleAssignTransactionsToUser allowAll assignment "assign" admin
    {| byUser_UserID := Some "U3" |} usersWorld
    = (Thrown (AppError GENERAL_ERROR "User not issued by the organization"
                 "handleAssignTransactionsToUser"), usersWorld).
Proof.
  exact (proj1 (proj2 (@handleAssignTransactionsToUser_outcomes allowAll assignment
                         "assign" admin {| byUser_UserID := Some "U3" |} usersWorld)
                  "U3" bob eq_refl eq_refl eq_refl eq_refl) eq_refl).
Defined.

(** X22: 501 is stored and read; 777 is not stored. *)
Lemma handleGetTransaction_outcomes_witness :
  @handleGetTransaction readers consumptions "read" admin {| byID_ID := Some 501 |}
    usersWorld = (Returned tx501, usersWorld)
  ∧ ∃ msg,
      @handleGetTransaction readers consumptions "read" admin {| byID_ID := Some 777 |}
        usersWorld
        = (Thrown (AppError OBJECT_DOES_NOT_EXIST_ERROR msg "handleGetTransaction"),
           usersWorld).
Proof.
  split.
  - exact (proj1 (proj2 (@handleGetTransaction_outcomes readers consumptions "read" admin
                           501 usersWorld)) tx501 eq_refl).
  - eexists.
    exact (proj1 (@handleGetTransaction_outcomes readers consumptions "read" admin 777
                    usersWorld) eq_refl).
Defined.

(** X23: a start date of 20 after an end date of 10: the error names 20
    twice. *)
Lemma handleGetTransactionConsumption_dates_witness :
  @handleGetTransactionConsumption readers consumptions "read" admin
    {| TransactionId := Some 501; consumption_StartDateTime := Some 20;
       consumption_EndDateTime := Some 10; LoadAllConsumptions := false |} usersWorld
    = (Thrown (AppError GENERAL_ERROR
                 "The requested start date '20' is after the requested end date '20' "
                 "handleGetConsumptionFromTransaction"), usersWorld).
Proof.
  exact (@handleGetTransactionConsumption_dates readers consumptions "read" admin
           {| TransactionId := Some 501; consumption_StartDateTime := Some 20;
              consumption_EndDateTime := Some 10; LoadAllConsumptions := false |}
           usersWorld 501 tx501 eq_refl eq_refl eq_refl).
Defined.

(** X24: the task fails for want of a refund implementation: the
    administrator gets the failure as the answer, and it is logged. *)
Lemma handleSynchronizeRefundedTransactions_never_throws_witness :
  ∃ r w',
    @handleSynchronizeRefundedTransactions readers failingSync reporting "sync" admin
      usersWorld = (Returned r, w')
    ∧ r = ErrorResponse
            (AppError GENERAL_ERROR "No Refund Implementation Found" "processTenant")
    ∧ ∃ entry, w' = set_logs (λ l, l ++ [entry]) usersWorld ∧ isErrorLog entry.
Proof.
  destruct (@handleSynchronizeRefundedTransactions_never_throws readers failingSync
              reporting "sync" admin usersWorld) as (r & w' & Hrun & _ & Hadmin).
  exists r, w'. split; [exact Hrun|]. exact (Hadmin eq_refl).
Defined.
End FurtherSamples.
